(** * Automatic-Audio-Extractor: the stream selector and the batch runner

    A shallow embedding of [extract_from_folder.py].  The script probes every
    video file of a folder with [ffprobe], picks the Japanese audio stream out
    of the probe text with a regular expression, and asks [ffmpeg] to extract
    it next to the source file as an MP3.

    Text is modelled over 8-bit characters ([ascii], read as the code points
    0..255).  The text the pattern is applied to is [str(output.stderr)], the
    printable-ASCII [repr] of a [bytes] object, so every character the
    selector ever sees lies in that range.

    [re] and [pathlib] belong to the Python library, not to the script; they
    are modelled as far as the script uses them: a backtracking matcher for
    literals, character sets, greedy [+] and groups with the scanning loop of
    [findall], and pure POSIX paths with [name], [stem], [suffix], [parent]
    and [/].  The external programs and the file system are parameters of
    the batch runner. *)

From Stdlib Require Import String Ascii List Bool Arith ZArith Lia.
From Stdlib Require Import Strings.Byte.
Import ListNotations.

Local Open Scope list_scope.
Local Open Scope string_scope.

(* ================================================================== *)
(** ** Characters and strings *)

Module Text.

Definition code (c : ascii) : nat := nat_of_ascii c.

Definition between (lo hi c : ascii) : bool :=
  ((code lo <=? code c) && (code c <=? code hi))%nat.

(** [str.lower()] on the code points 0..255: the ASCII capitals and the
    Latin-1 capitals U+00C0..U+00DE (U+00D7, the multiplication sign, is not
    a letter) move up by 32; everything else is unchanged. *)
Definition lower_char (c : ascii) : ascii :=
  let n := code c in
  if (((65 <=? n) && (n <=? 90))
      || ((192 <=? n) && (n <=? 222) && negb (n =? 215)))%nat
  then ascii_of_nat (n + 32)
  else c.

Fixpoint lower (s : string) : string :=
  match s with
  | EmptyString => EmptyString
  | String c s' => String (lower_char c) (lower s')
  end.

(** [s.startswith(p)], returning what follows the prefix. *)
Fixpoint strip_prefix (p s : string) : option string :=
  match p with
  | EmptyString => Some s
  | String a p' =>
      match s with
      | String b s' => if Ascii.eqb a b then strip_prefix p' s' else None
      | EmptyString => None
      end
  end.

(** The longest prefix of [s] made of characters satisfying [f], and the
    rest. *)
Fixpoint span (f : ascii -> bool) (s : string) : string * string :=
  match s with
  | String c s' =>
      if f c then let (p, r) := span f s' in (String c p, r)
      else (EmptyString, s)
  | EmptyString => (EmptyString, EmptyString)
  end.

Fixpoint forall_char (f : ascii -> bool) (s : string) : bool :=
  match s with
  | EmptyString => true
  | String c s' => f c && forall_char f s'
  end.

(** The slices [s[:n]] and [s[n:]] for [0 <= n]. *)
Fixpoint take (n : nat) (s : string) : string :=
  match n, s with
  | S n', String c s' => String c (take n' s')
  | _, _ => EmptyString
  end.

Fixpoint drop (n : nat) (s : string) : string :=
  match n, s with
  | S n', String _ s' => drop n' s'
  | _, _ => s
  end.

(** [sep.join(parts)] *)
Fixpoint join (sep : string) (parts : list string) : string :=
  match parts with
  | [] => EmptyString
  | [x] => x
  | x :: rest => x ++ sep ++ join sep rest
  end.

(** [sub] occurs in [s]. *)
Definition occurs_in (sub s : string) : Prop :=
  exists pre post, s = pre ++ sub ++ post.

End Text.

(* ================================================================== *)
(** ** A backtracking matcher for the fragment of [re] the script uses *)

Module Re.

Import Text.

(** Sets of characters: a literal character, [\d], a bracket expression of
    ranges such as [[a-zA-Z]]. *)
Inductive charset : Type :=
| CsChar (c : ascii)
| CsDigit
| CsRanges (ranges : list (ascii * ascii)).

(** On the code points 0..255 the only decimal digits (category Nd) are
    the ASCII ones. *)
Definition is_digit (c : ascii) : bool := between "0" "9" c.

Definition charset_mem (cs : charset) (c : ascii) : bool :=
  match cs with
  | CsChar a => Ascii.eqb a c
  | CsDigit => is_digit c
  | CsRanges ranges => existsb (fun r => between (fst r) (snd r) c) ranges
  end.

Definition range (lo hi : ascii) : ascii * ascii := (lo, hi).

Inductive regex : Type :=
| REmpty
| RSet (cs : charset)
| RPlus (cs : charset)            (* greedy [cs+] *)
| RSeq (r1 r2 : regex)
| RGroup (r : regex).             (* a capturing group [( ... )] *)

(** A run of literal characters. *)
Fixpoint RLit (s : string) : regex :=
  match s with
  | EmptyString => REmpty
  | String c s' => RSeq (RSet (CsChar c)) (RLit s')
  end.

Section Matcher.

Context {A : Type}.

(** Greedy repetition: take one more character when possible and fall back
    to the continuation at the current position when everything after the
    longer run fails. *)
Fixpoint star (cs : charset) (k : string -> option A) (s : string)
  : option A :=
  match s with
  | String c s' =>
      if charset_mem cs c then
        match star cs k s' with
        | Some res => Some res
        | None => k s
        end
      else k s
  | EmptyString => k s
  end.

(** [exec r s gs k] matches [r] at the start of [s]; [gs] holds the groups
    closed so far, and [k] is run on what is left of the subject.  A failing
    continuation makes the matcher backtrack into [r]. *)
Fixpoint exec (r : regex) (s : string) (gs : list string)
    (k : string -> list string -> option A) : option A :=
  match r with
  | REmpty => k s gs
  | RSet cs =>
      match s with
      | String c s' => if charset_mem cs c then k s' gs else None
      | EmptyString => None
      end
  | RPlus cs =>
      match s with
      | String c s' =>
          if charset_mem cs c then star cs (fun rest => k rest gs) s'
          else None
      | EmptyString => None
      end
  | RSeq r1 r2 => exec r1 s gs (fun s' gs' => exec r2 s' gs' k)
  | RGroup r' =>
      exec r' s gs
        (fun s' gs' =>
           k s' (gs' ++ [take (String.length s - String.length s') s])%list)
  end.

End Matcher.

(** [pattern.match(s)]: the captured groups and the unconsumed rest. *)
Definition match_at (r : regex) (s : string)
  : option (list string * string) :=
  exec r s [] (fun rest gs => Some (gs, rest)).

(** The scanner of [pattern.findall]: try the pattern at the current
    position; on success record the groups and go on where the match ended
    (one character further when the match was empty), otherwise move one
    character forward.  [fuel] bounds the number of positions tried. *)
Fixpoint scan (fuel : nat) (r : regex) (s : string) : list (list string) :=
  match fuel with
  | O => []
  | S fuel' =>
      match match_at r s with
      | Some (gs, rest) =>
          if (String.length rest <? String.length s)%nat
          then gs :: scan fuel' r rest
          else gs :: match s with
                     | String _ s' => scan fuel' r s'
                     | EmptyString => []
                     end
      | None =>
          match s with
          | String _ s' => scan fuel' r s'
          | EmptyString => []
          end
      end
  end.

Definition findall (r : regex) (s : string) : list (list string) :=
  scan (S (String.length s)) r s.

End Re.

(* ================================================================== *)
(** ** The stream selector *)

Import Text Re.

(** [VIDEO_EXTS = (".mkv", ".mp4")] *)
Definition VIDEO_EXTS : list string := [".mkv"; ".mp4"].

(** [AUDIO_STREAM_RE = re.compile(r"Stream #(\d:\d)\(([a-zA-Z]+)\): Audio")] *)
Definition AUDIO_STREAM_RE : regex :=
  RSeq (RLit "Stream #")
    (RSeq (RGroup (RSeq (RSet CsDigit)
                     (RSeq (RSet (CsChar ":")) (RSet CsDigit))))
       (RSeq (RSet (CsChar "("))
          (RSeq (RGroup (RPlus (CsRanges [range "a" "z"; range "A" "Z"])))
             (RLit "): Audio")))).

(** The exceptions the script meets: its own, and [OSError] with its
    subclasses ([FileNotFoundError], [PermissionError], ...), which
    [subprocess.run] and [iterdir] raise. *)
Inductive exception : Type :=
| JapaneseNotFoundException
| OSError (message : string).

Inductive result (A : Type) : Type :=
| Return (a : A)
| Raise (e : exception).

Arguments Return {A} a.
Arguments Raise {A} e.

(** With two groups [findall] yields a list of pairs of the groups,
    e.g. [[("0:1", "eng"), ("0:2", "jpn")]]. *)
Definition as_pair (gs : list string) : string * string :=
  (nth 0 gs "", nth 1 gs "").

Definition streams_of (probe_text : string) : list (string * string) :=
  map as_pair (findall AUDIO_STREAM_RE probe_text).

(** The loop [for index, language in streams] with the [raise] after it. *)
Fixpoint look_for_japanese (streams : list (string * string))
  : result string :=
  match streams with
  | [] => Raise JapaneseNotFoundException
  | (index, language) :: streams' =>
      if String.eqb (lower language) "jpn" then Return index
      else look_for_japanese streams'
  end.

(** The selection logic of [get_japanese_audio_track], from the [findall]
    on, as a function of the probe text. *)
Definition select_japanese_track (probe_text : string) : result string :=
  let streams := streams_of probe_text in
  (* if there's only one stream, assume it's Japanese *)
  if (List.length streams =? 0)%nat then Raise JapaneseNotFoundException
  else if (List.length streams =? 1)%nat
  then Return (fst (nth 0 streams ("", "")))
  else (* otherwise, look for Japanese *)
    look_for_japanese streams.


(** [str(b)] for a [bytes] object [b]: its [repr], [b'...'].  The quote is
    the apostrophe unless the bytes hold an apostrophe and no double quote;
    the quote and the backslash are escaped, tab, newline and carriage
    return are written [\t], [\n], [\r], every other byte outside the
    printable ASCII range as [\xNN]. *)
Module Bytes.

Definition bytes : Type := list byte.

Definition apostrophe : ascii := "039".
Definition dquote : ascii := "034".
Definition backslash : ascii := "092".

Definition hexdigit (n : nat) : ascii :=
  nth n (list_ascii_of_string "0123456789abcdef") "0"%char.

Definition contains (c : ascii) (b : bytes) : bool :=
  existsb (fun x => Ascii.eqb (ascii_of_byte x) c) b.

Definition quote_for (b : bytes) : ascii :=
  if contains apostrophe b && negb (contains dquote b) then dquote
  else apostrophe.

Definition repr_byte (quote : ascii) (x : byte) : string :=
  let c := ascii_of_byte x in
  let n := code c in
  if Ascii.eqb c quote || Ascii.eqb c backslash
  then String backslash (String c "")
  else if (n =? 9)%nat then String backslash "t"
  else if (n =? 10)%nat then String backslash "n"
  else if (n =? 13)%nat then String backslash "r"
  else if ((n <? 32) || (127 <=? n))%nat
  then String backslash
         (String "x" (String (hexdigit (n / 16))
                        (String (hexdigit (n mod 16)) "")))
  else String c "".

Fixpoint escape (quote : ascii) (b : bytes) : string :=
  match b with
  | [] => ""
  | x :: b' => repr_byte quote x ++ escape quote b'
  end.

Definition repr (b : bytes) : string :=
  let quote := quote_for b in
  String "b" (String quote (escape quote b ++ String quote "")).

(** The bytes [repr] writes as they are. *)
Definition plain (quote c : ascii) : bool :=
  (negb (Ascii.eqb c quote) && negb (Ascii.eqb c backslash)
   && (32 <=? code c) && (code c <? 127))%nat.

(** The two quotes [repr] chooses between. *)
Definition is_quote (q : ascii) : Prop :=
  q = apostrophe \/ q = dquote.

(** What follows the opening quote in [repr]. *)
Definition quoted_tail (q : ascii) (xs : bytes) : string :=
  escape q xs ++ String q "".

(** [b.decode("latin-1")]: the bytes read as the text they encode. *)
Definition decode (b : bytes) : string := string_of_list_byte b.

End Bytes.

(* ================================================================== *)
(** ** [pathlib]: pure POSIX paths

    A path is kept the way [pathlib] keeps it once parsed: the root (empty,
    [/] or [//]) and the components after it. *)

Module Pathlib.

Record Path : Type := mkPath { root : string; tail : list string }.

Definition is_sep (c : ascii) : bool := Ascii.eqb c "/".

(** [posixpath.splitroot]: no leading slash, no root; exactly two leading
    slashes are kept as the root [//]; otherwise the root is [/]. *)
Definition splitroot (p : string) : string * string :=
  match p with
  | String c1 r1 =>
      if is_sep c1 then
        match r1 with
        | String c2 r2 =>
            if is_sep c2 then
              match r2 with
              | String c3 _ => if is_sep c3 then ("/", r1) else ("//", r2)
              | EmptyString => ("//", r2)
              end
            else ("/", r1)
        | EmptyString => ("/", r1)
        end
      else ("", p)
  | EmptyString => ("", p)
  end.

(** [rel.split("/")] *)
Fixpoint split_sep (s : string) : list string :=
  match s with
  | EmptyString => [EmptyString]
  | String c s' =>
      if is_sep c then EmptyString :: split_sep s'
      else match split_sep s' with
           | h :: t => String c h :: t
           | [] => [String c EmptyString]
           end
  end.

(** [[x for x in rel.split(sep) if x and x != "."]] *)
Definition segments (rel : string) : list string :=
  filter (fun x => negb (String.eqb x "") && negb (String.eqb x "."))
         (split_sep rel).

(** [Path(s)] *)
Definition parse (s : string) : Path :=
  let (rt, rel) := splitroot s in mkPath rt (segments rel).

(** [str(p)] *)
Definition str (p : Path) : string :=
  let s := root p ++ join "/" (tail p) in
  if String.eqb s "" then "." else s.

(** [p.name] *)
Definition name (p : Path) : string := last (tail p) "".

(** [p.parent] *)
Definition parent (p : Path) : Path :=
  match tail p with
  | [] => p
  | _ => mkPath (root p) (removelast (tail p))
  end.

(** [s.rfind(c)]: the highest index of [c] in [s], or [-1]. *)
Fixpoint rfind (c : ascii) (s : string) : Z :=
  match s with
  | EmptyString => (-1)%Z
  | String a s' =>
      let r := rfind c s' in
      if (0 <=? r)%Z then (r + 1)%Z
      else if Ascii.eqb a c then 0%Z else (-1)%Z
  end.

Definition len (s : string) : Z := Z.of_nat (String.length s).

(** [p.suffix]: [name[i:]] when [0 < i < len(name) - 1] for the last dot
    [i] of the name, else the empty string. *)
Definition suffix (p : Path) : string :=
  let nm := name p in
  let i := rfind "." nm in
  if ((0 <? i) && (i <? len nm - 1))%Z then drop (Z.to_nat i) nm
  else "".

(** [p.stem]: [name[:i]] under the same condition, else the whole name. *)
Definition stem (p : Path) : string :=
  let nm := name p in
  let i := rfind "." nm in
  if ((0 <? i) && (i <? len nm - 1))%Z then take (Z.to_nat i) nm
  else nm.

(** [p / key] for a string [key]: a key with a root replaces the path,
    otherwise its components are appended. *)
Definition truediv (p : Path) (key : string) : Path :=
  let k := parse key in
  if negb (String.eqb (root k) "") then k
  else mkPath (root p) (tail p ++ tail k).

(** [p._make_child_relpath(name)], what [iterdir] builds for each name
    [os.listdir] returns: the name is appended as it is. *)
Definition make_child_relpath (p : Path) (entry : string) : Path :=
  mkPath (root p) (tail p ++ [entry]).

(** The components of a folder, each followed by the separator: what
    [str] writes before the name of an entry of the folder. *)
Fixpoint dir_prefix (components : list string) : string :=
  match components with
  | [] => ""
  | x :: rest => x ++ "/" ++ dir_prefix rest
  end.

Definition sep_free (s : string) : bool :=
  forall_char (fun c => negb (is_sep c)) s.

(** The names a directory can hold: not empty, no separator, and neither
    [.] nor [..], which [os.listdir] never returns. *)
Definition entry_name_ok (n : string) : bool :=
  negb (String.eqb n "") && sep_free n
  && negb (String.eqb n ".") && negb (String.eqb n "..").

(** The invariant of parsed paths: no component is empty, is [.] or holds a
    separator. *)
Definition component_ok (x : string) : bool :=
  negb (String.eqb x "") && negb (String.eqb x ".") && sep_free x.

Definition wf (p : Path) : Prop :=
  Forall (fun x => component_ok x = true) (tail p).

End Pathlib.

(* ================================================================== *)
(** ** The batch runner: effects

    What a task does to the outside world is recorded as a trace of events:
    the calls of [subprocess.run] and of [print].  The outside world
    answers through five parameters.  A call
    [subprocess.run(cmd, capture_output=True)] raises [OSError] when the
    program cannot be started ([subprocess_error cmd] gives the message)
    and otherwise returns [subprocess_run cmd]; listing a folder raises
    [OSError] when [listdir_error] says so and otherwise yields the names
    [os_listdir] gives; [is_file] answers [Path.is_file]. *)

Import Pathlib.

Inductive event : Type :=
| SubprocessRun (cmd : string)
| Print (text : string).

Record CompletedProcess : Type :=
  mkCompleted { returncode : Z; stdout : Bytes.bytes; stderr : Bytes.bytes }.

(** A computation: the events it emitted and how it ended. *)
Definition M (A : Type) : Type := list event * result A.

Definition ret {A} (a : A) : M A := ([], Return a).

Definition bind {A B} (m : M A) (f : A -> M B) : M B :=
  match m with
  | (t, Return a) => let (t', r) := f a in ((t ++ t')%list, r)
  | (t, Raise e) => (t, Raise e)
  end.

Definition emit (e : event) : M unit := ([e], Return tt).

Definition lift {A} (r : result A) : M A := ([], r).

(** [try: ... except ...]: the outcome of the body handed to the handler
    and to the code after the [try]. *)
Definition try_except {A} (m : M A) : M (result A) :=
  (fst m, Return (snd m)).

Notation "x <- m ;; k" := (bind m (fun x => k))
  (at level 61, m at next level, right associativity).
Notation "m ;;; k" := (bind m (fun _ => k))
  (at level 61, right associativity).

Definition newline : string := String "010" "".
Definition quoted (s : string) : string :=
  String Bytes.dquote (s ++ String Bytes.dquote "").

(** The worker pool: the tasks of [executor.map] run side by side, so the
    events of the batch are some interleaving of the traces of the tasks,
    each task keeping the order of its own events.  Leaving the [with]
    block waits for every task, so an interleaving ends only when every
    trace is used up. *)
Inductive interleaving : list (list event) -> list event -> Prop :=
| interleaving_finished (tasks : list (list event)) :
    Forall (fun t => t = []) tasks -> interleaving tasks []
| interleaving_step (before after : list (list event)) (e : event)
    (t trace : list event) :
    interleaving (before ++ t :: after)%list trace ->
    interleaving (before ++ (e :: t) :: after)%list (e :: trace).

Section BatchRunner.

Variable subprocess_run : string -> CompletedProcess.
Variable subprocess_error : string -> option string.
Variable os_listdir : Path -> list string.
Variable listdir_error : Path -> option string.
Variable is_file : Path -> bool.

Definition run (cmd : string) : M CompletedProcess :=
  emit (SubprocessRun cmd) ;;;
  match subprocess_error cmd with
  | Some message => lift (Raise (OSError message))
  | None => ret (subprocess_run cmd)
  end.

Definition print (text : string) : M unit := emit (Print text).

Definition get_japanese_audio_track (video_file : Path) : M string :=
  let video := str video_file in
  let cmd := "ffprobe " ++ quoted video in
  output <- run cmd ;;
  lift (select_japanese_track (Bytes.repr (stderr output))).

(** [video_file.parent / (video_file.stem + ".mp3")] *)
Definition output_path (video_file : Path) : Path :=
  truediv (parent video_file) (stem video_file ++ ".mp3").

Definition ffmpeg_cmd (video_file : Path) (track_index output_filename : string)
  : string :=
  "ffmpeg -i " ++ quoted (str video_file) ++ " -q:a 0 -map " ++ track_index
    ++ " " ++ quoted output_filename.

Definition extract_audio (video_file : Path) : M unit :=
  (* find the Japanese audio track *)
  found <- try_except (get_japanese_audio_track video_file) ;;
  match found with
  | Raise JapaneseNotFoundException =>
      print "No Japanese audio track found." ;;;
      ret tt
  | Raise e =>
      (* any other exception is not caught *)
      lift (Raise e)
  | Return track_index =>
      (* use ffmpeg to convert to mp3 *)
      let input_filename := str video_file in
      let output_filename := str (output_path video_file) in
      let cmd := ffmpeg_cmd video_file track_index output_filename in
      print ("Extracting audio from " ++ input_filename ++ newline) ;;;
      run cmd ;;;
      ret tt
  end.

(** [folder_to_convert.iterdir()] *)
Definition iterdir (folder : Path) : list Path :=
  map (make_child_relpath folder) (os_listdir folder).

(** The list [video_files] that [main] builds. *)
Definition video_files (folder_to_convert : Path) : list Path :=
  filter
    (fun video_file =>
       is_file video_file
       && existsb (String.eqb (lower (suffix video_file))) VIDEO_EXTS)
    (iterdir folder_to_convert).

(** [main(folder_to_convert)]: the traces a run of the batch can leave,
    and how it ends.  When the folder cannot be listed the error leaves
    [main] right after the first notice.  Otherwise the tasks run; their
    outcomes are never collected from [executor.map], so an exception
    that ends a task is dropped and [main] goes on to its last notice. *)
Definition main (folder_to_convert : string) (trace : list event)
    (outcome : result unit) : Prop :=
  let folder := parse folder_to_convert in
  match listdir_error folder with
  | Some message =>
      trace = [Print "Scanning folder for video files"]
      /\ outcome = Raise (OSError message)
  | None =>
      exists tasks_trace,
        interleaving
          (map (fun video_file => fst (extract_audio video_file))
               (video_files folder))
          tasks_trace
        /\ trace
           = (Print "Scanning folder for video files"
                :: tasks_trace ++ [Print "Conversion complete!"])%list
        /\ outcome = Return tt
  end.

End BatchRunner.

(** Kinds of events, for counting what a run did. *)
Definition starts_with (p s : string) : bool :=
  match strip_prefix p s with
  | Some _ => true
  | None => false
  end.

Definition is_ffprobe_run (e : event) : bool :=
  match e with
  | SubprocessRun cmd => starts_with "ffprobe " cmd
  | Print _ => false
  end.

Definition is_ffmpeg_run (e : event) : bool :=
  match e with
  | SubprocessRun cmd => starts_with "ffmpeg " cmd
  | Print _ => false
  end.

Definition is_skip_notice (e : event) : bool :=
  match e with
  | Print text => String.eqb text "No Japanese audio track found."
  | SubprocessRun _ => false
  end.

Definition count (f : event -> bool) (trace : list event) : nat :=
  List.length (filter f trace).

(** How a call of [subprocess.run] that was made ends. *)
Definition started (subprocess_error : string -> option string)
    (cmd : string) : result unit :=
  match subprocess_error cmd with
  | Some message => Raise (OSError message)
  | None => Return tt
  end.

Definition event_eqb (a b : event) : bool :=
  match a, b with
  | SubprocessRun x, SubprocessRun y => String.eqb x y
  | Print x, Print y => String.eqb x y
  | _, _ => false
  end.

(** The command of the probe of a file. *)
Definition ffprobe_cmd (video_file : Path) : string :=
  "ffprobe " ++ quoted (str video_file).

(** The kept files whose probe could be started. *)
Definition probed (subprocess_error : string -> option string)
    (files : list Path) : list Path :=
  filter (fun v => match subprocess_error (ffprobe_cmd v) with
                   | Some _ => false
                   | None => true
                   end)
         files.

(** The spellings of [jpn] that differ by the case of the letters. *)
Definition jpn_spellings : list string :=
  ["jpn"; "jpN"; "jPn"; "jPN"; "Jpn"; "JpN"; "JPn"; "JPN"].

Definition dot_free (s : string) : bool :=
  forall_char (fun c => negb (Ascii.eqb c ".")) s.

(** The printable ASCII characters. *)
Definition printable (c : ascii) : bool :=
  ((32 <=? code c) && (code c <? 127))%nat.

(* ================================================================== *)
(** ** Probe reports

    The stream lines of an [ffprobe] report, as in the example of the
    script's docstring: [Stream #0:1(eng): Audio: ...] for an audio stream
    that carries a language tag, and the same line without the parenthesis
    ([Stream #0:0: Video: ...] there) for a stream that carries none. *)

Module Probe.

Record descriptor : Type :=
  mkDescriptor { label : string; language : option string }.

Definition tag_text (d : descriptor) : string :=
  match language d with
  | Some l => "(" ++ l ++ ")"
  | None => ""
  end.

Definition descriptor_line (d : descriptor) : string :=
  "Stream #" ++ label d ++ tag_text d ++ ": Audio".

(** The barest report: one descriptor line per audio stream, each ended
    by a newline, and nothing else.  It serves for the smallest inputs;
    reports as the probe prints them are the [report]s below. *)
Fixpoint text (ds : list descriptor) : string :=
  match ds with
  | [] => ""
  | d :: ds' => descriptor_line d ++ newline ++ text ds'
  end.

Definition is_alpha (c : ascii) : bool :=
  between "a" "z" c || between "A" "Z" c.

(** Labels and tags of the shape the probe tool prints and the pattern
    expects: [digit:digit], and a non-empty run of ASCII letters. *)
Definition label_ok (l : string) : bool :=
  match l with
  | String d1 (String c (String d2 EmptyString)) =>
      is_digit d1 && Ascii.eqb c ":" && is_digit d2
  | _ => false
  end.

Definition tag_ok (t : string) : bool :=
  negb (String.eqb t "") && forall_char is_alpha t.

Definition descriptor_ok (d : descriptor) : bool :=
  label_ok (label d)
  && match language d with Some t => tag_ok t | None => true end.

(** The descriptors that carry a tag, as (label, tag) pairs. *)
Fixpoint tagged (ds : list descriptor) : list (string * string) :=
  match ds with
  | [] => []
  | d :: ds' =>
      match language d with
      | Some t => (label d, t) :: tagged ds'
      | None => tagged ds'
      end
  end.

Definition is_jpn (t : string) : bool := String.eqb (lower t) "jpn".

Definition tagged_jpn (d : descriptor) : bool :=
  match language d with
  | Some t => is_jpn t
  | None => false
  end.

(** *** Reports as the probe prints them

    A report is cut into pieces: the descriptor of an audio stream,
    [Stream #0:1(eng): Audio] or [Stream #0:1: Audio]; the head of a stream
    of another kind with what follows it on the line,
    [Stream #0:0: Video: h264 ...], where the kind is not [Audio] nor
    the beginning of it; and filler, any text in which no [Stream #]
    begins (indentation, the details after [Audio], the lines about the
    input and its metadata). *)
Inductive segment : Type :=
| Filler (filler : string)
| AudioStream (d : descriptor)
| OtherStream (label : string) (language : option string) (rest : string).

Definition report : Type := list segment.

Definition render_segment (seg : segment) : string :=
  match seg with
  | Filler filler => filler
  | AudioStream d => descriptor_line d
  | OtherStream l lang rest =>
      "Stream #" ++ l ++ tag_text (mkDescriptor l lang) ++ ": " ++ rest
  end.

Fixpoint render (r : report) : string :=
  match r with
  | [] => ""
  | seg :: r' => render_segment seg ++ render r'
  end.

(** The audio stream descriptors of a report, tagged or not, in order. *)
Fixpoint audio_streams (r : report) : list descriptor :=
  match r with
  | [] => []
  | AudioStream d :: r' => d :: audio_streams r'
  | _ :: r' => audio_streams r'
  end.

(** [s] and [p] agree as far as both go: [s] starts with [p], or is the
    beginning of [p]. *)
Fixpoint compatible (p s : string) : bool :=
  match p, s with
  | String a p', String b s' => Ascii.eqb a b && compatible p' s'
  | _, _ => true
  end.

(** No [Stream #] begins in the text, whatever comes after the text. *)
Fixpoint marker_free (filler : string) : bool :=
  match filler with
  | EmptyString => true
  | String c rest =>
      negb (compatible "Stream #" (String c rest)) && marker_free rest
  end.

Definition segment_ok (seg : segment) : bool :=
  match seg with
  | Filler filler => marker_free filler
  | AudioStream d => descriptor_ok d
  | OtherStream l lang rest =>
      descriptor_ok (mkDescriptor l lang)
      && negb (compatible "Audio" rest) && marker_free rest
  end.

Definition report_ok (r : report) : bool := forallb segment_ok r.

End Probe.

(** A direct recogniser for the shape [AUDIO_STREAM_RE] describes; it is
    proved below to agree with the backtracking matcher on every subject. *)
Definition match_descriptor (s : string) : option (list string * string) :=
  match strip_prefix "Stream #" s with
  | Some (String d1 (String c (String d2 (String o s4)))) =>
      if is_digit d1 && Ascii.eqb ":" c && is_digit d2 && Ascii.eqb "(" o
      then
        let (lang, s5) := span Probe.is_alpha s4 in
        match lang with
        | EmptyString => None
        | _ =>
            match strip_prefix "): Audio" s5 with
            | Some rest =>
                Some ([String d1 (String c (String d2 "")); lang], rest)
            | None => None
            end
        end
      else None
  | _ => None
  end.

(** No [S] occurs in [w]: no match of the pattern can start there. *)
Definition no_S (w : string) : bool :=
  forall_char (fun c => negb (Ascii.eqb "S" c)) w.

(** No stream of the sequence is tagged [jpn], whatever the case of the
    letters. *)
Definition no_jpn (streams : list (string * string)) : Prop :=
  forall x, In x streams -> Probe.is_jpn (snd x) = false.

(** The stream lines of the docstring, cut into pieces. *)
Definition docstring_report : Probe.report :=
  [Probe.Filler "    ";
   Probe.OtherStream "0:0" None
     "Video: h264 (High), yuv420p(progressive), 1440x1080
    ";
   Probe.AudioStream (Probe.mkDescriptor "0:1" (Some "eng"));
   Probe.Filler ": aac (LC), 48000 Hz, 5.1, fltp (default)
    ";
   Probe.AudioStream (Probe.mkDescriptor "0:2" (Some "jpn"));
   Probe.Filler ": aac (LC), 48000 Hz, stereo, fltp
    ";
   Probe.OtherStream "0:3" (Some "eng") "Subtitle: subrip (default)
"].

(** A file whose only audio stream carries no language tag. *)
Definition untagged_report : Probe.report :=
  [Probe.Filler "    ";
   Probe.OtherStream "0:0" None
     "Video: h264 (High), yuv420p(progressive), 1440x1080
    ";
   Probe.AudioStream (Probe.mkDescriptor "0:1" None);
   Probe.Filler ": aac (LC), 48000 Hz, stereo, fltp (default)
"].

(** A file with an untagged audio stream and an English one. *)
Definition untagged_and_eng_report : Probe.report :=
  [Probe.Filler "    ";
   Probe.OtherStream "0:0" None
     "Video: h264 (High), yuv420p(progressive), 1440x1080
    ";
   Probe.AudioStream (Probe.mkDescriptor "0:1" None);
   Probe.Filler ": aac (LC), 48000 Hz, stereo, fltp (default)
    ";
   Probe.AudioStream (Probe.mkDescriptor "0:2" (Some "eng"));
   Probe.Filler ": ac3, 48000 Hz, 5.1(side), fltp, 448 kb/s
"].

(** The probe text of the script's docstring. *)
Definition docstring_example : string :=
  "    Stream #0:0: Video: h264 (High), yuv420p(progressive), 1440x1080
    Stream #0:1(eng): Audio: aac (LC), 48000 Hz, 5.1, fltp (default)
    Stream #0:2(jpn): Audio: aac (LC), 48000 Hz, stereo, fltp
    Stream #0:3(eng): Subtitle: subrip (default)
".

(** A sample run: a folder with two video files and a text file, a probe
    that answers with the docstring's report, except that it cannot be
    started on [b.mp4]; the tasks run one after the other. *)
Definition sample_subprocess_run : string -> CompletedProcess :=
  fun _ => mkCompleted 0 [] (list_byte_of_string docstring_example).

Definition sample_subprocess_error : string -> option string :=
  fun cmd =>
    if String.eqb cmd (ffprobe_cmd (parse "videos/b.mp4"))
    then Some "No such file or directory"
    else None.

Definition sample_listdir : Path -> list string :=
  fun _ => ["a.mkv"; "c.txt"; "b.mp4"].

Definition sample_trace : list event :=
  (Print "Scanning folder for video files"
     :: concat
          (map (fun v =>
                  fst (extract_audio sample_subprocess_run
                         sample_subprocess_error v))
             (video_files sample_listdir (fun _ => true) (parse "videos")))
     ++ [Print "Conversion complete!"])%list.

(* ================================================================== *)
(** * Properties *)

(** ** Strings *)

Lemma append_nil_r (s : string) : s ++ "" = s.
Proof. induction s as [|c s IH]; simpl; [reflexivity | now rewrite IH]. Qed.

Lemma append_assoc (a b c : string) : (a ++ b) ++ c = a ++ b ++ c.
Proof. induction a as [|x a IH]; simpl; [reflexivity | now rewrite IH]. Qed.

Lemma length_append (a b : string) :
  String.length (a ++ b) = String.length a + String.length b.
Proof. induction a as [|x a IH]; simpl; [reflexivity | now rewrite IH]. Qed.

Lemma take_append (a b : string) :
  take (String.length (a ++ b) - String.length b) (a ++ b) = a.
Proof.
  rewrite length_append.
  replace (String.length a + String.length b - String.length b)
    with (String.length a) by lia.
  induction a as [|x a IH]; simpl.
  - destruct b; reflexivity.
  - now rewrite IH.
Qed.

Lemma take_drop (n : nat) (s : string) : take n s ++ drop n s = s.
Proof.
  revert s; induction n as [|n IH]; intros [|c s]; simpl; try reflexivity.
  now rewrite IH.
Qed.

Lemma strip_prefix_spec (p s rest : string) :
  strip_prefix p s = Some rest <-> s = p ++ rest.
Proof.
  revert s; induction p as [|a p IH]; intros s; simpl.
  - split; [intros [= ->] | intros ->]; reflexivity.
  - destruct s as [|b s]; [split; discriminate|].
    destruct (Ascii.eqb_spec a b) as [->|Hne].
    + rewrite IH. split; [intros -> | intros [= ->]]; reflexivity.
    + split; [discriminate | intros [= E _]; congruence].
Qed.

Lemma strip_prefix_append (p rest : string) :
  strip_prefix p (p ++ rest) = Some rest.
Proof. now apply strip_prefix_spec. Qed.

Lemma span_spec (f : ascii -> bool) (s p r : string) :
  span f s = (p, r) ->
  s = p ++ r /\ forall_char f p = true
  /\ match r with String c _ => f c = false | EmptyString => True end.
Proof.
  revert p r; induction s as [|c s IH]; simpl; intros p r.
  - intros [= <- <-]. auto.
  - destruct (f c) eqn:Hc.
    + destruct (span f s) as [p' r'] eqn:E. intros [= <- <-].
      destruct (IH _ _ eq_refl) as (-> & Hp & Hr).
      simpl. rewrite Hc, Hp. auto.
    + intros [= <- <-]. simpl. auto.
Qed.

Lemma span_append (f : ascii -> bool) (p r : string) :
  forall_char f p = true ->
  match r with String c _ => f c = false | EmptyString => True end ->
  span f (p ++ r) = (p, r).
Proof.
  intros Hp Hr. induction p as [|c p IH]; simpl in *.
  - destruct r as [|c r]; simpl; [reflexivity | now rewrite Hr].
  - apply andb_true_iff in Hp as [Hc Hp]. now rewrite Hc, IH.
Qed.

(** ** The matcher on [AUDIO_STREAM_RE] *)

Section MatcherFacts.

Context {A : Type}.

Lemma exec_RLit (lit s : string) (gs : list string)
    (k : string -> list string -> option A) :
  exec (RLit lit) s gs k =
  match strip_prefix lit s with
  | Some s' => k s' gs
  | None => None
  end.
Proof.
  revert s; induction lit as [|a lit IH]; intros s; simpl; [reflexivity|].
  destruct s as [|b s]; [reflexivity|].
  destruct (Ascii.eqb a b); [apply IH | reflexivity].
Qed.

(** When the continuation rejects every subject that starts with one more
    character of the set, backtracking never helps: the greedy run is the
    only candidate. *)
Lemma star_span (cs : charset) (k : string -> option A) (s : string) :
  (forall c s', charset_mem cs c = true -> k (String c s') = None) ->
  star cs k s = k (snd (span (charset_mem cs) s)).
Proof.
  intros Hk. induction s as [|c s IH]; simpl; [reflexivity|].
  destruct (charset_mem cs c) eqn:Hc; [|reflexivity].
  rewrite IH. destruct (span (charset_mem cs) s) as [p r]; simpl.
  destruct (k r); [reflexivity | now apply Hk].
Qed.

End MatcherFacts.

Lemma alpha_charset (c : ascii) :
  charset_mem (CsRanges [range "a" "z"; range "A" "Z"]) c = Probe.is_alpha c.
Proof. unfold Probe.is_alpha; simpl. now rewrite orb_false_r. Qed.

Lemma is_alpha_not_paren (c : ascii) :
  Probe.is_alpha c = true -> Ascii.eqb ")" c = false.
Proof.
  intros H. destruct (Ascii.eqb_spec ")" c) as [<-|]; [|reflexivity].
  discriminate H.
Qed.

Lemma span_alpha_charset (s : string) :
  span (charset_mem (CsRanges [range "a" "z"; range "A" "Z"])) s
  = span Probe.is_alpha s.
Proof.
  induction s as [|c s IH]; [reflexivity|].
  cbn [span]. now rewrite alpha_charset, IH.
Qed.

(** The backtracking matcher and the direct recogniser agree. *)
Lemma match_at_AUDIO_STREAM_RE (s : string) :
  match_at AUDIO_STREAM_RE s = match_descriptor s.
Proof.
  unfold match_at, AUDIO_STREAM_RE, match_descriptor.
  cbn [exec]. rewrite exec_RLit.
  destruct (strip_prefix "Stream #" s) as [s1|]; [|reflexivity].
  destruct s1 as [|d1 [|c [|d2 [|o s4]]]]; cbn [exec charset_mem];
    try reflexivity;
    try (destruct (is_digit d1); [|reflexivity]);
    try (destruct (Ascii.eqb ":" c); [|reflexivity]);
    try (destruct (is_digit d2); [|reflexivity]);
    try reflexivity.
  cbn [andb app].
  destruct (Ascii.eqb "(" o); [|reflexivity].
  change (String d1 (String c (String d2 (String o s4))))
    with (String d1 (String c (String d2 "")) ++ String o s4).
  rewrite take_append.
  destruct s4 as [|a s']; [reflexivity|].
  change (existsb _ _) with
    (charset_mem (CsRanges [range "a" "z"; range "A" "Z"]) a).
  rewrite alpha_charset. cbn [span].
  destruct (Probe.is_alpha a) eqn:Ha; [|reflexivity].
  rewrite star_span.
  - rewrite span_alpha_charset.
    destruct (span Probe.is_alpha s') as [p r] eqn:E. cbn [snd].
    apply span_spec in E as (-> & _ & _).
    change (String a (p ++ r)) with (String a p ++ r).
    rewrite take_append, exec_RLit.
    destruct (strip_prefix "): Audio" r); reflexivity.
  - intros x t Hx. rewrite exec_RLit. cbn [strip_prefix].
    rewrite alpha_charset in Hx. now rewrite (is_alpha_not_paren _ Hx).
Qed.

Lemma match_descriptor_inv (s : string) (gs : list string) (rest : string) :
  match_descriptor s = Some (gs, rest) ->
  exists l t,
    Probe.label_ok l = true /\ Probe.tag_ok t = true /\ gs = [l; t]
    /\ s = "Stream #" ++ l ++ "(" ++ t ++ "): Audio" ++ rest.
Proof.
  unfold match_descriptor.
  destruct (strip_prefix "Stream #" s) as [s1|] eqn:E1; [|discriminate].
  apply strip_prefix_spec in E1 as ->.
  destruct s1 as [|d1 [|c [|d2 [|o s4]]]]; try discriminate.
  destruct (is_digit d1 && Ascii.eqb ":" c && is_digit d2 && Ascii.eqb "(" o)
    eqn:Hc; [|discriminate].
  apply andb_true_iff in Hc as [Hc H].
  apply andb_true_iff in Hc as [Hc H0].
  apply andb_true_iff in Hc as [Hc H1].
  destruct (span Probe.is_alpha s4) as [lang s5] eqn:E2.
  apply span_spec in E2 as (-> & Hlang & _).
  destruct lang as [|a lang]; [discriminate|].
  destruct (strip_prefix "): Audio" s5) as [r|] eqn:E3; [|discriminate].
  apply strip_prefix_spec in E3 as ->. intros [= <- <-].
  apply Ascii.eqb_eq in H, H1. subst c o.
  exists (String d1 (String ":" (String d2 ""))), (String a lang).
  repeat split.
  - cbn [Probe.label_ok]. rewrite Hc, H0. reflexivity.
  - unfold Probe.tag_ok. rewrite Hlang. reflexivity.
Qed.

Lemma match_descriptor_intro (l t rest : string) :
  Probe.label_ok l = true -> Probe.tag_ok t = true ->
  match_descriptor ("Stream #" ++ l ++ "(" ++ t ++ "): Audio" ++ rest)
  = Some ([l; t], rest).
Proof.
  intros Hl Ht. unfold match_descriptor.
  rewrite strip_prefix_append.
  destruct l as [|d1 [|c [|d2 [|]]]]; try discriminate.
  cbn [Probe.label_ok] in Hl.
  apply andb_true_iff in Hl as [Hl H].
  apply andb_true_iff in Hl as [Hl H0].
  apply Ascii.eqb_eq in H0. subst c.
  cbn [append]. rewrite Hl, H. cbn [Ascii.eqb Bool.eqb andb].
  apply andb_true_iff in Ht as [Hne Ht].
  rewrite (span_append Probe.is_alpha t _ Ht) by reflexivity.
  destruct t as [|a t]; [discriminate|].
  reflexivity.
Qed.

Lemma match_descriptor_shorter (s : string) (gs : list string) (rest : string) :
  match_descriptor s = Some (gs, rest) ->
  String.length rest < String.length s.
Proof.
  intros H. apply match_descriptor_inv in H as (l & t & _ & _ & _ & ->).
  rewrite !length_append. simpl. lia.
Qed.

(** No match starts at a character other than [S]. *)
Lemma match_descriptor_head (c : ascii) (s : string) :
  Ascii.eqb "S" c = false -> match_descriptor (String c s) = None.
Proof.
  intros H. unfold match_descriptor. cbn [strip_prefix]. now rewrite H.
Qed.

(** ** The scanner *)

Lemma scan_fuel (r : regex) (n m : nat) (s : string) :
  String.length s < n -> String.length s < m -> scan n r s = scan m r s.
Proof.
  revert m s; induction n as [|n IH]; intros m s Hn Hm; [lia|].
  destruct m as [|m]; [lia|]. simpl.
  destruct (match_at r s) as [[gs rest]|].
  - destruct (String.length rest <? String.length s)%nat eqn:Hlt.
    + apply Nat.ltb_lt in Hlt. f_equal. apply IH; lia.
    + f_equal. destruct s as [|c s]; [reflexivity|].
      simpl in *. apply IH; lia.
  - destruct s as [|c s]; [reflexivity|]. simpl in *. apply IH; lia.
Qed.

(** [findall] does not run out of fuel: it satisfies the equation of the
    scanning loop. *)
Lemma findall_unfold (r : regex) (s : string) :
  findall r s =
  match match_at r s with
  | Some (gs, rest) =>
      if (String.length rest <? String.length s)%nat
      then gs :: findall r rest
      else gs :: match s with
                 | String _ s' => findall r s'
                 | EmptyString => []
                 end
  | None =>
      match s with
      | String _ s' => findall r s'
      | EmptyString => []
      end
  end.
Proof.
  unfold findall at 1. cbn [scan].
  destruct (match_at r s) as [[gs rest]|].
  - destruct (String.length rest <? String.length s)%nat eqn:Hlt.
    + apply Nat.ltb_lt in Hlt. f_equal. apply scan_fuel; lia.
    + destruct s as [|c s]; [reflexivity|]. reflexivity.
  - destruct s as [|c s]; reflexivity.
Qed.

Lemma streams_of_unfold (s : string) :
  streams_of s =
  match match_descriptor s with
  | Some (gs, rest) => as_pair gs :: streams_of rest
  | None =>
      match s with
      | String _ s' => streams_of s'
      | EmptyString => []
      end
  end.
Proof.
  unfold streams_of. rewrite findall_unfold, match_at_AUDIO_STREAM_RE.
  destruct (match_descriptor s) as [[gs rest]|] eqn:E.
  - apply match_descriptor_shorter in E. apply Nat.ltb_lt in E.
    now rewrite E.
  - destruct s; reflexivity.
Qed.

Lemma streams_of_skip (c : ascii) (s : string) :
  Ascii.eqb "S" c = false -> streams_of (String c s) = streams_of s.
Proof.
  intros H. rewrite streams_of_unfold. now rewrite match_descriptor_head.
Qed.

Lemma streams_of_match (l t rest : string) :
  Probe.label_ok l = true -> Probe.tag_ok t = true ->
  streams_of ("Stream #" ++ l ++ "(" ++ t ++ "): Audio" ++ rest)
  = (l, t) :: streams_of rest.
Proof.
  intros Hl Ht. rewrite streams_of_unfold.
  now rewrite match_descriptor_intro.
Qed.

(** Every pair [findall] reports stands in the text, in the shape of the
    pattern, with a well-formed label and tag. *)
Lemma streams_of_sound (s : string) (l t : string) :
  In (l, t) (streams_of s) ->
  Probe.label_ok l = true /\ Probe.tag_ok t = true
  /\ occurs_in ("Stream #" ++ l ++ "(" ++ t ++ "): Audio") s.
Proof.
  remember (String.length s) as n eqn:Hn.
  revert s Hn. induction n as [n IH] using lt_wf_ind. intros s Hn.
  rewrite streams_of_unfold.
  destruct (match_descriptor s) as [[gs rest]|] eqn:E.
  - pose proof (match_descriptor_shorter _ _ _ E) as Hlt.
    apply match_descriptor_inv in E as (l' & t' & Hl & Ht & -> & ->).
    intros [[= <- <-]|Hin].
    + repeat split; try assumption.
      exists "", rest. rewrite !append_assoc. reflexivity.
    + destruct (IH (String.length rest)) with (s := rest)
        as (Hl' & Ht' & pre & post & Hs); try assumption; [lia|reflexivity|].
      repeat split; try assumption.
      exists ("Stream #" ++ l' ++ "(" ++ t' ++ "): Audio" ++ pre), post.
      rewrite Hs at 1. rewrite !append_assoc. reflexivity.
  - destruct s as [|c s]; [intros []|]. intros Hin.
    destruct (IH (String.length s)) with (s := s)
      as (Hl' & Ht' & pre & post & Hs); try assumption;
      [subst n; simpl; lia | reflexivity |].
    repeat split; try assumption.
    exists (String c pre), post. rewrite Hs at 1. reflexivity.
Qed.

(** ** Probe reports are parsed back *)

Lemma is_digit_not_S (c : ascii) :
  is_digit c = true -> Ascii.eqb "S" c = false.
Proof.
  intros H. destruct (Ascii.eqb_spec "S" c) as [<-|]; [|reflexivity].
  discriminate H.
Qed.

Lemma streams_of_untagged_line (l rest : string) :
  Probe.label_ok l = true ->
  streams_of ("Stream #" ++ l ++ ": Audio" ++ rest) = streams_of rest.
Proof.
  intros Hl.
  destruct l as [|d1 [|c [|d2 [|]]]]; try discriminate.
  cbn [Probe.label_ok] in Hl.
  apply andb_true_iff in Hl as [Hl Hd2].
  apply andb_true_iff in Hl as [Hd1 Hc].
  apply Ascii.eqb_eq in Hc. subst c.
  rewrite streams_of_unfold.
  replace (match_descriptor _) with (@None (list string * string)).
  - cbn [append].
    repeat (rewrite streams_of_skip
              by (reflexivity || now apply is_digit_not_S)).
    reflexivity.
  - unfold match_descriptor. cbn [append strip_prefix Ascii.eqb Bool.eqb].
    now rewrite !andb_false_r.
Qed.

(** The pattern finds exactly the tagged descriptors of a report, in the
    order of the text; a line without a language tag is not found. *)
Lemma streams_of_probe_text (ds : list Probe.descriptor) :
  forallb Probe.descriptor_ok ds = true ->
  streams_of (Probe.text ds) = Probe.tagged ds.
Proof.
  induction ds as [|d ds IH]; [reflexivity|].
  cbn [forallb Probe.text Probe.tagged]. intros H.
  apply andb_true_iff in H as [Hd Hds].
  apply andb_true_iff in Hd as [Hl Ht].
  unfold Probe.descriptor_line, Probe.tag_text.
  destruct (Probe.language d) as [t|].
  - replace (("Stream #" ++ Probe.label d ++ ("(" ++ t ++ ")") ++ ": Audio")
             ++ newline ++ Probe.text ds)
      with ("Stream #" ++ Probe.label d ++ "(" ++ t ++ "): Audio"
            ++ newline ++ Probe.text ds)
      by (now rewrite !append_assoc).
    rewrite streams_of_match by assumption.
    unfold newline. cbn [append].
    rewrite streams_of_skip by reflexivity. now rewrite IH.
  - replace (("Stream #" ++ Probe.label d ++ "" ++ ": Audio")
             ++ newline ++ Probe.text ds)
      with ("Stream #" ++ Probe.label d ++ ": Audio"
            ++ newline ++ Probe.text ds)
      by (now rewrite !append_assoc).
    rewrite streams_of_untagged_line by assumption.
    unfold newline. cbn [append].
    rewrite streams_of_skip by reflexivity. now apply IH.
Qed.

(** ** The selection loop *)

Lemma look_for_japanese_first (pre post : list (string * string))
    (index language : string) :
  no_jpn pre -> Probe.is_jpn language = true ->
  look_for_japanese (pre ++ (index, language) :: post)%list = Return index.
Proof.
  intros Hpre Hjpn. induction pre as [|[i t] pre IH]; simpl.
  - unfold Probe.is_jpn in Hjpn. now rewrite Hjpn.
  - pose proof (Hpre (i, t) (or_introl eq_refl)) as Hit.
    unfold Probe.is_jpn in Hit. simpl in Hit. rewrite Hit.
    apply IH. intros x Hx. apply Hpre. now right.
Qed.

Lemma look_for_japanese_none (streams : list (string * string)) :
  look_for_japanese streams = Raise JapaneseNotFoundException
  <-> no_jpn streams.
Proof.
  induction streams as [|[i t] streams IH]; simpl.
  - split; [intros _ x [] | reflexivity].
  - destruct (String.eqb (lower t) "jpn") eqn:E.
    + split; [discriminate|]. intros H.
      specialize (H (i, t) (or_introl eq_refl)).
      unfold Probe.is_jpn in H. simpl in H. congruence.
    + rewrite IH. split.
      * intros H x [<-|Hx]; [exact E | now apply H].
      * intros H x Hx. apply H. now right.
Qed.

Lemma look_for_japanese_found (streams : list (string * string))
    (index : string) :
  look_for_japanese streams = Return index ->
  exists pre language post,
    streams = (pre ++ (index, language) :: post)%list
    /\ no_jpn pre /\ Probe.is_jpn language = true.
Proof.
  induction streams as [|[i t] streams IH]; simpl; [discriminate|].
  destruct (String.eqb (lower t) "jpn") eqn:E.
  - intros [= ->]. exists [], t, streams. repeat split; try assumption.
    intros x [].
  - intros H. destruct (IH H) as (pre & language & post & -> & Hpre & Hj).
    exists ((i, t) :: pre), language, post. repeat split; try assumption.
    intros x [<-|Hx]; [exact E | now apply Hpre].
Qed.

(** The loop ends with a label or with the script's own exception. *)
Lemma look_for_japanese_outcome (streams : list (string * string)) :
  (exists index, look_for_japanese streams = Return index)
  \/ look_for_japanese streams = Raise JapaneseNotFoundException.
Proof.
  induction streams as [|[i t] streams IH]; simpl; [now right|].
  destruct (String.eqb (lower t) "jpn"); [left; now exists i | exact IH].
Qed.

Lemma select_japanese_track_cases (probe_text : string) :
  select_japanese_track probe_text =
  match streams_of probe_text with
  | [] => Raise JapaneseNotFoundException
  | [(index, _)] => Return index
  | streams => look_for_japanese streams
  end.
Proof.
  unfold select_japanese_track.
  destruct (streams_of probe_text) as [|[i t] [|y rest]]; reflexivity.
Qed.

(** ** The stream selector *)

Lemma selected_streams_member (probe_text index : string) :
  select_japanese_track probe_text = Return index ->
  exists tag, In (index, tag) (streams_of probe_text).
Proof.
  rewrite select_japanese_track_cases. intros H.
  destruct (streams_of probe_text) as [|[i t] [|y rest]].
  - discriminate.
  - injection H as ->. exists t. now left.
  - apply look_for_japanese_found in H
      as (pre & language & post & -> & _ & _).
    exists language. apply in_or_app. right. now left.
Qed.

Example streams_of_docstring_example :
  streams_of docstring_example = [("0:1", "eng"); ("0:2", "jpn")].
Proof. vm_compute. reflexivity. Qed.

(** C1.  When the pattern finds at least two audio streams in the probe
    text and exactly one of them is tagged [jpn] (compared after
    lower-casing), the selector returns the label of that stream, wherever
    it stands in the sequence: any streams [pre] may come before it and any
    streams [post] after it. *)
Theorem select_the_only_jpn_stream
    (probe_text : string) (pre post : list (string * string))
    (index language : string) :
  streams_of probe_text = (pre ++ (index, language) :: post)%list ->
  2 <= List.length (streams_of probe_text) ->
  Probe.is_jpn language = true ->
  no_jpn (pre ++ post)%list ->
  select_japanese_track probe_text = Return index.
Proof.
  intros Hs Hlen Hj Hno.
  rewrite select_japanese_track_cases.
  assert (Hpre : no_jpn pre).
  { intros x Hx. apply Hno, in_or_app. now left. }
  pose proof (look_for_japanese_first pre post index language Hpre Hj) as Hl.
  rewrite Hs in *.
  destruct (pre ++ (index, language) :: post)%list as [|[i t] [|y rest]];
    simpl in Hlen; try lia.
  exact Hl.
Qed.

Lemma select_the_only_jpn_stream_witness :
  select_japanese_track docstring_example = Return "0:2".
Proof.
  apply (select_the_only_jpn_stream docstring_example
           [("0:1", "eng")] [] "0:2" "jpn").
  - vm_compute. reflexivity.
  - vm_compute. apply le_n.
  - vm_compute. reflexivity.
  - intros x [<-|[]]. vm_compute. reflexivity.
Defined.

(** The selector raises [JapaneseNotFoundException] exactly when the
    pattern finds no audio stream in the probe text, or finds two or more
    of which none is tagged [jpn]; in every other case it returns an index
    label. *)
Lemma select_raises_iff (probe_text : string) :
  (select_japanese_track probe_text = Raise JapaneseNotFoundException
   <-> streams_of probe_text = []
       \/ (2 <= List.length (streams_of probe_text)
           /\ no_jpn (streams_of probe_text)))
  /\ ((exists index, select_japanese_track probe_text = Return index)
      <-> ~ (streams_of probe_text = []
             \/ (2 <= List.length (streams_of probe_text)
                 /\ no_jpn (streams_of probe_text)))).
Proof.
  rewrite select_japanese_track_cases.
  destruct (streams_of probe_text) as [|[i t] [|y rest]] eqn:E.
  - split; split.
    + now left.
    + reflexivity.
    + intros [index H]. discriminate.
    + intros H. exfalso. apply H. now left.
  - split; split.
    + discriminate.
    + intros [H|[H _]]; [discriminate | simpl in H; lia].
    + intros _ [H|[H _]]; [discriminate | simpl in H; lia].
    + intros _. now exists i.
  - split; split.
    + intros H. right. split; [simpl; lia | now apply look_for_japanese_none].
    + intros [H|[_ H]]; [discriminate | now apply look_for_japanese_none].
    + intros [index H] [H'|[_ H']]; [discriminate|].
      apply look_for_japanese_none in H'. congruence.
    + intros H.
      destruct (look_for_japanese_outcome ((i, t) :: y :: rest))
        as [[index El]|El].
      * now exists index.
      * exfalso. apply H. right.
        split; [simpl; lia | now apply look_for_japanese_none].
Qed.

(** C4.  When two or more of the audio streams the pattern finds are
    tagged [jpn], the selector returns the label of the first of them in
    the order of the text. *)
Theorem select_first_of_several_jpn
    (probe_text : string) (pre post : list (string * string))
    (index language : string) :
  streams_of probe_text = (pre ++ (index, language) :: post)%list ->
  no_jpn pre ->
  Probe.is_jpn language = true ->
  (exists x, In x post /\ Probe.is_jpn (snd x) = true) ->
  select_japanese_track probe_text = Return index.
Proof.
  intros Hs Hpre Hj (x & Hx & _).
  rewrite select_japanese_track_cases.
  pose proof (look_for_japanese_first pre post index language Hpre Hj) as Hl.
  rewrite Hs.
  destruct pre as [|[i t] [|y pre]]; simpl in *.
  - destruct post; [destruct Hx | exact Hl].
  - exact Hl.
  - exact Hl.
Qed.

Lemma select_first_of_several_jpn_witness :
  select_japanese_track
    "Stream #0:1(eng): Audio, Stream #0:2(JPN): Audio, Stream #0:3(jpn): Audio"
  = Return "0:2".
Proof.
  apply (select_first_of_several_jpn _
           [("0:1", "eng")] [("0:3", "jpn")] "0:2" "JPN").
  - vm_compute. reflexivity.
  - intros x [<-|[]]. vm_compute. reflexivity.
  - vm_compute. reflexivity.
  - exists ("0:3", "jpn"). split; [now left | vm_compute; reflexivity].
Defined.

(** C9.  A label the selector returns is the first group of a match of the
    pattern in the probe text: for some tag, [Stream #<label>(<tag>): Audio]
    occurs in the text, and the pair (label, tag) is one of the streams
    found.  The selector neither invents nor alters a label. *)
Theorem selected_label_occurs_in_text (probe_text index : string) :
  select_japanese_track probe_text = Return index ->
  exists tag,
    In (index, tag) (streams_of probe_text)
    /\ occurs_in ("Stream #" ++ index ++ "(" ++ tag ++ "): Audio") probe_text.
Proof.
  intros H. apply selected_streams_member in H as [tag Hin].
  exists tag. split; [assumption|].
  now apply streams_of_sound in Hin.
Qed.

Lemma selected_label_occurs_in_text_witness :
  exists tag,
    In ("0:2", tag) (streams_of docstring_example)
    /\ occurs_in ("Stream #" ++ "0:2" ++ "(" ++ tag ++ "): Audio")
         docstring_example.
Proof.
  apply (selected_label_occurs_in_text docstring_example "0:2").
  vm_compute. reflexivity.
Defined.

(** C3, counterexample.  A stream line without a language tag is not a
    match, so a report whose only audio stream is untagged yields no stream
    at all and the selector raises instead of returning the label. *)
Lemma single_untagged_stream_not_found :
  let d := Probe.mkDescriptor "0:1" None in
  Probe.text [d] = "Stream #0:1: Audio" ++ newline
  /\ streams_of (Probe.text [d]) = []
  /\ select_japanese_track (Probe.text [d]) = Raise JapaneseNotFoundException
  /\ select_japanese_track (Probe.text [d]) <> Return (Probe.label d).
Proof. vm_compute. repeat split; discriminate. Qed.

(** C3 (amended).  When the pattern finds exactly one audio stream in the
    probe text, the selector returns its label whatever its language tag
    is; the stream does carry a tag, a non-empty run of letters, since the
    pattern matches no line without one. *)
Theorem select_single_stream (probe_text index language : string) :
  streams_of probe_text = [(index, language)] ->
  select_japanese_track probe_text = Return index
  /\ Probe.tag_ok language = true.
Proof.
  intros H. split.
  - rewrite select_japanese_track_cases, H. reflexivity.
  - assert (Hin : In (index, language) (streams_of probe_text))
      by (rewrite H; now left).
    now apply streams_of_sound in Hin.
Qed.

Lemma select_single_stream_witness :
  select_japanese_track "Stream #0:1(eng): Audio: aac (LC), 48000 Hz"
  = Return "0:1"
  /\ Probe.tag_ok "eng" = true.
Proof.
  apply (select_single_stream _ "0:1" "eng").
  vm_compute. reflexivity.
Defined.

Lemma select_requires_jpn_among_several (probe_text index : string) :
  2 <= List.length (streams_of probe_text) ->
  select_japanese_track probe_text = Return index ->
  exists tag,
    In (index, tag) (streams_of probe_text) /\ Probe.is_jpn tag = true.
Proof.
  rewrite select_japanese_track_cases. intros Hlen H.
  destruct (streams_of probe_text) as [|[i t] [|y rest]];
    simpl in Hlen; try lia.
  apply look_for_japanese_found in H as (pre & language & post & -> & _ & Hj).
  exists language. split; [|assumption].
  apply in_or_app. right. now left.
Qed.

Lemma select_prefers_jpn (probe_text : string) :
  (exists x, In x (streams_of probe_text) /\ Probe.is_jpn (snd x) = true) ->
  exists index tag,
    select_japanese_track probe_text = Return index
    /\ In (index, tag) (streams_of probe_text) /\ Probe.is_jpn tag = true.
Proof.
  intros (x & Hx & Hj). rewrite select_japanese_track_cases.
  destruct (streams_of probe_text) as [|[i t] [|y rest]] eqn:E.
  - destruct Hx.
  - destruct Hx as [<-|[]]. exists i, t. repeat split; [now left | exact Hj].
  - destruct (look_for_japanese_outcome ((i, t) :: y :: rest))
      as [[index El]|El].
    + pose proof El as Hret.
      apply look_for_japanese_found in El
        as (pre & language & post & El & _ & Hl).
      exists index, language. split; [exact Hret|]. split; [|assumption].
      rewrite El. apply in_or_app. right. now left.
    + apply look_for_japanese_none in El. rewrite (El x Hx) in Hj.
      discriminate.
Qed.

Lemma in_tagged (ds : list Probe.descriptor) (l t : string) :
  In (l, t) (Probe.tagged ds) <-> In (Probe.mkDescriptor l (Some t)) ds.
Proof.
  induction ds as [|[l' [t'|]] ds IH]; simpl.
  - reflexivity.
  - rewrite IH. split; (intros [[= -> ->]|H]; [now left | now right]).
  - rewrite IH. split; [now right | intros [[=]|H]; assumption].
Qed.

(** C5, counterexample.  One untagged stream beside one stream tagged
    [eng]: the pattern finds a single stream, and the shortcut returns it
    although the report holds two streams and nothing is tagged [jpn]. *)
Lemma untagged_stream_beside_eng :
  let ds := [Probe.mkDescriptor "0:1" None;
             Probe.mkDescriptor "0:2" (Some "eng")] in
  2 <= List.length ds
  /\ existsb Probe.tagged_jpn ds = false
  /\ streams_of (Probe.text ds) = [("0:2", "eng")]
  /\ select_japanese_track (Probe.text ds) = Return "0:2".
Proof. vm_compute. repeat split. apply le_n. Qed.

(** ** The probe text behind [str(output.stderr)] *)

Lemma forall_char_append (f : ascii -> bool) (a b : string) :
  forall_char f (a ++ b) = forall_char f a && forall_char f b.
Proof.
  induction a as [|c a IH]; [reflexivity|].
  cbn [append forall_char]. now rewrite IH, andb_assoc.
Qed.

Lemma forall_char_impl (f g : ascii -> bool) (s : string) :
  (forall c, f c = true -> g c = true) ->
  forall_char f s = true -> forall_char g s = true.
Proof.
  intros Hfg. induction s as [|c s IH]; [reflexivity|].
  cbn [forall_char]. rewrite !andb_true_iff. intros [Hc Hs].
  split; [now apply Hfg | now apply IH].
Qed.

Lemma quote_for_is_quote (b : Bytes.bytes) : Bytes.is_quote (Bytes.quote_for b).
Proof.
  unfold Bytes.quote_for, Bytes.is_quote.
  destruct (Bytes.contains Bytes.apostrophe b
            && negb (Bytes.contains Bytes.dquote b)); auto.
Qed.

Lemma code_neq_eqb (a b : ascii) : code a <> code b -> Ascii.eqb a b = false.
Proof.
  intros H.
  destruct (Ascii.eqb_spec a b) as [->|]; [contradiction | reflexivity].
Qed.

Lemma range_plain (q : ascii) (lo hi c : ascii) :
  Bytes.is_quote q -> between lo hi c = true ->
  (39 < code lo)%nat -> (code hi < 127)%nat ->
  (code hi < 92 \/ 92 < code lo)%nat ->
  Bytes.plain q c = true.
Proof.
  unfold between, Bytes.plain. intros Hq H Hlo Hhi Hbs.
  apply andb_true_iff in H as [H1 H2].
  apply Nat.leb_le in H1, H2.
  rewrite !andb_true_iff, !negb_true_iff. repeat split.
  - apply code_neq_eqb. destruct Hq as [-> | ->]; cbn; lia.
  - apply code_neq_eqb. cbn. lia.
  - apply Nat.leb_le. lia.
  - apply Nat.ltb_lt. lia.
Qed.

Lemma is_digit_plain (q c : ascii) :
  Bytes.is_quote q -> is_digit c = true -> Bytes.plain q c = true.
Proof.
  intros Hq H. apply (range_plain q "0" "9" c Hq H); cbn; lia.
Qed.

Lemma is_alpha_plain (q c : ascii) :
  Bytes.is_quote q -> Probe.is_alpha c = true -> Bytes.plain q c = true.
Proof.
  intros Hq H. apply orb_true_iff in H as [H|H].
  - apply (range_plain q "a" "z" c Hq H); cbn; lia.
  - apply (range_plain q "A" "Z" c Hq H); cbn; lia.
Qed.

Lemma descriptor_plain (q : ascii) (l t : string) :
  Bytes.is_quote q -> Probe.label_ok l = true -> Probe.tag_ok t = true ->
  forall_char (Bytes.plain q) ("Stream #" ++ l ++ "(" ++ t ++ "): Audio")
  = true.
Proof.
  intros Hq Hl Ht.
  destruct l as [|d1 [|c [|d2 [|]]]]; try discriminate.
  cbn [Probe.label_ok] in Hl.
  apply andb_true_iff in Hl as [Hl Hd2].
  apply andb_true_iff in Hl as [Hd1 Hc].
  apply Ascii.eqb_eq in Hc. subst c.
  apply andb_true_iff in Ht as [_ Ht].
  rewrite !forall_char_append.
  rewrite (forall_char_impl _ _ t (fun c => is_alpha_plain q c Hq) Ht).
  cbn [forall_char].
  rewrite (is_digit_plain q d1 Hq Hd1), (is_digit_plain q d2 Hq Hd2).
  destruct Hq as [-> | ->]; reflexivity.
Qed.

Lemma repr_byte_plain (q : ascii) (x : byte) :
  Bytes.plain q (ascii_of_byte x) = true ->
  Bytes.repr_byte q x = String (ascii_of_byte x) "".
Proof.
  unfold Bytes.plain, Bytes.repr_byte. intros H.
  apply andb_true_iff in H as [H H4].
  apply andb_true_iff in H as [H H3].
  apply andb_true_iff in H as [H1 H2].
  apply negb_true_iff in H1, H2.
  apply Nat.leb_le in H3. apply Nat.ltb_lt in H4.
  rewrite H1, H2. cbn [orb].
  replace (code (ascii_of_byte x) =? 9)%nat with false
    by (symmetry; apply Nat.eqb_neq; lia).
  replace (code (ascii_of_byte x) =? 10)%nat with false
    by (symmetry; apply Nat.eqb_neq; lia).
  replace (code (ascii_of_byte x) =? 13)%nat with false
    by (symmetry; apply Nat.eqb_neq; lia).
  replace (code (ascii_of_byte x) <? 32)%nat with false
    by (symmetry; apply Nat.ltb_ge; lia).
  replace (127 <=? code (ascii_of_byte x))%nat with false
    by (symmetry; apply Nat.leb_gt; lia).
  reflexivity.
Qed.

Lemma hexdigit_not_S (k : nat) : Ascii.eqb "S" (Bytes.hexdigit k) = false.
Proof.
  unfold Bytes.hexdigit.
  do 16 (destruct k as [|k]; [reflexivity|]).
  cbn [list_ascii_of_string nth]. now destruct k.
Qed.

(** A byte [repr] does not write as it is becomes a backslash escape, in
    which no [S] occurs. *)
Lemma repr_byte_escape (q : ascii) (x : byte) :
  Bytes.is_quote q ->
  Bytes.plain q (ascii_of_byte x) = false ->
  exists w, Bytes.repr_byte q x = String Bytes.backslash w /\ no_S w = true.
Proof.
  intros Hq H. unfold Bytes.repr_byte.
  destruct (Ascii.eqb (ascii_of_byte x) q
            || Ascii.eqb (ascii_of_byte x) Bytes.backslash) eqn:E1.
  - eexists; split; [reflexivity|].
    apply orb_true_iff in E1 as [E|E]; apply Ascii.eqb_eq in E; rewrite E.
    + destruct Hq as [-> | ->]; reflexivity.
    + reflexivity.
  - destruct (code (ascii_of_byte x) =? 9)%nat;
      [eexists; split; reflexivity|].
    destruct (code (ascii_of_byte x) =? 10)%nat;
      [eexists; split; reflexivity|].
    destruct (code (ascii_of_byte x) =? 13)%nat;
      [eexists; split; reflexivity|].
    destruct ((code (ascii_of_byte x) <? 32)
              || (127 <=? code (ascii_of_byte x)))%nat eqn:E2.
    + eexists; split; [reflexivity|].
      unfold no_S. cbn [forall_char]. now rewrite !hexdigit_not_S.
    + exfalso. unfold Bytes.plain in H.
      apply orb_false_iff in E1 as [Ea Eb], E2 as [Ec Ed].
      rewrite Ea, Eb in H. cbn [negb andb] in H.
      apply Nat.ltb_ge in Ec. apply Nat.leb_gt in Ed.
      apply andb_false_iff in H as [H|H].
      * apply Nat.leb_gt in H. lia.
      * apply Nat.ltb_ge in H. lia.
Qed.

Lemma streams_of_skip_word (w s : string) :
  no_S w = true -> streams_of (w ++ s) = streams_of s.
Proof.
  unfold no_S. induction w as [|c w IH]; [reflexivity|].
  cbn [forall_char append]. intros H.
  apply andb_true_iff in H as [Hc Hw]. apply negb_true_iff in Hc.
  rewrite streams_of_skip by assumption. now apply IH.
Qed.

Lemma list_byte_of_string_cons (c : ascii) (m : string) :
  list_byte_of_string (String c m) = byte_of_ascii c :: list_byte_of_string m.
Proof. reflexivity. Qed.

Lemma decode_cons (x : byte) (xs : Bytes.bytes) :
  Bytes.decode (x :: xs) = String (ascii_of_byte x) (Bytes.decode xs).
Proof. reflexivity. Qed.

Lemma decode_app (m : string) (xs : Bytes.bytes) :
  Bytes.decode (list_byte_of_string m ++ xs)%list = m ++ Bytes.decode xs.
Proof.
  induction m as [|c m IH]; [reflexivity|].
  rewrite list_byte_of_string_cons. cbn [app append].
  now rewrite decode_cons, ascii_of_byte_of_ascii, IH.
Qed.

Lemma decode_prefix (m rest : string) (xs : Bytes.bytes) :
  Bytes.decode xs = m ++ rest ->
  exists xs', xs = (list_byte_of_string m ++ xs')%list
              /\ rest = Bytes.decode xs'.
Proof.
  revert xs; induction m as [|c m IH]; intros xs H.
  - exists xs. split; [reflexivity | exact (eq_sym H)].
  - destruct xs as [|x xs]; [discriminate|].
    rewrite decode_cons in H. cbn [append] in H. injection H as Hc H.
    destruct (IH xs H) as (xs' & -> & ->). exists xs'. split; [|reflexivity].
    rewrite list_byte_of_string_cons. cbn [app].
    now rewrite <- Hc, byte_of_ascii_of_byte.
Qed.

Lemma plain_not_quote (q c : ascii) :
  Bytes.plain q c = true -> c <> q /\ c <> Bytes.backslash.
Proof.
  unfold Bytes.plain. rewrite !andb_true_iff, !negb_true_iff.
  intros [[[H1 H2] _] _]. split; now apply Ascii.eqb_neq.
Qed.

Lemma quoted_tail_app (q : ascii) (m : string) (xs : Bytes.bytes) :
  forall_char (Bytes.plain q) m = true ->
  Bytes.quoted_tail q (list_byte_of_string m ++ xs)%list
  = m ++ Bytes.quoted_tail q xs.
Proof.
  unfold Bytes.quoted_tail. induction m as [|c m IH]; [reflexivity|].
  rewrite list_byte_of_string_cons.
  cbn [forall_char app Bytes.escape]. intros H.
  apply andb_true_iff in H as [Hc Hm].
  rewrite repr_byte_plain by (now rewrite ascii_of_byte_of_ascii).
  rewrite ascii_of_byte_of_ascii. cbn [append]. now rewrite IH.
Qed.

Lemma quoted_tail_prefix (q : ascii) (m rest : string) (xs : Bytes.bytes) :
  Bytes.is_quote q ->
  forall_char (Bytes.plain q) m = true ->
  Bytes.quoted_tail q xs = m ++ rest ->
  exists xs', xs = (list_byte_of_string m ++ xs')%list
              /\ rest = Bytes.quoted_tail q xs'.
Proof.
  intros Hq. revert xs; induction m as [|c m IH]; intros xs Hm H.
  - exists xs. split; [reflexivity | exact (eq_sym H)].
  - cbn [forall_char] in Hm. apply andb_true_iff in Hm as [Hc Hm].
    destruct (plain_not_quote q c Hc) as [Hcq Hcb].
    destruct xs as [|x xs].
    + unfold Bytes.quoted_tail in H. cbn in H. injection H as Hq' _. congruence.
    + unfold Bytes.quoted_tail in H. cbn [Bytes.escape] in H.
      destruct (Bytes.plain q (ascii_of_byte x)) eqn:Hx.
      * rewrite (repr_byte_plain q x Hx) in H. cbn [append] in H.
        injection H as Hxc H.
        destruct (IH xs Hm H) as (xs' & -> & ->). exists xs'.
        split; [|reflexivity].
        rewrite list_byte_of_string_cons. cbn [app].
        now rewrite <- Hxc, byte_of_ascii_of_byte.
      * destruct (repr_byte_escape q x Hq Hx) as (w & Hw & _).
        rewrite Hw in H. cbn [append] in H. injection H as Hb _. congruence.
Qed.

Lemma length_list_byte_of_string (m : string) :
  List.length (list_byte_of_string m) = String.length m.
Proof.
  induction m as [|c m IH]; [reflexivity|].
  rewrite list_byte_of_string_cons. simpl. now rewrite IH.
Qed.

Lemma match_decode_to_repr (q : ascii) (xs : Bytes.bytes)
    (gs : list string) (rest : string) :
  Bytes.is_quote q ->
  match_descriptor (Bytes.decode xs) = Some (gs, rest) ->
  exists xs',
    rest = Bytes.decode xs'
    /\ List.length xs' < List.length xs
    /\ match_descriptor (Bytes.quoted_tail q xs)
       = Some (gs, Bytes.quoted_tail q xs').
Proof.
  intros Hq H.
  apply match_descriptor_inv in H as (l & t & Hl & Ht & -> & H).
  rewrite <- !append_assoc in H.
  apply decode_prefix in H as (xs' & -> & ->).
  exists xs'. split; [reflexivity|]. split.
  - rewrite length_app, length_list_byte_of_string, !length_append.
    simpl. lia.
  - rewrite quoted_tail_app.
    + rewrite !append_assoc. now apply match_descriptor_intro.
    + rewrite !append_assoc. now apply descriptor_plain.
Qed.

Lemma match_repr_to_decode (q : ascii) (xs : Bytes.bytes)
    (gs : list string) (rest : string) :
  Bytes.is_quote q ->
  match_descriptor (Bytes.quoted_tail q xs) = Some (gs, rest) ->
  exists xs', match_descriptor (Bytes.decode xs)
              = Some (gs, Bytes.decode xs').
Proof.
  intros Hq H.
  apply match_descriptor_inv in H as (l & t & Hl & Ht & -> & H).
  rewrite <- !append_assoc in H.
  apply quoted_tail_prefix in H as (xs' & -> & ->); [|assumption|].
  - exists xs'. rewrite decode_app, !append_assoc.
    now apply match_descriptor_intro.
  - rewrite !append_assoc. now apply descriptor_plain.
Qed.

Lemma streams_of_quoted_tail (q : ascii) (xs : Bytes.bytes) :
  Bytes.is_quote q ->
  streams_of (Bytes.quoted_tail q xs) = streams_of (Bytes.decode xs).
Proof.
  intros Hq.
  remember (List.length xs) as n eqn:Hn. revert xs Hn.
  induction n as [n IH] using lt_wf_ind. intros xs Hn.
  rewrite (streams_of_unfold (Bytes.decode xs)).
  destruct (match_descriptor (Bytes.decode xs)) as [[gs rest]|] eqn:E.
  - destruct (match_decode_to_repr q xs gs rest Hq E) as (xs' & -> & Hlt & E').
    rewrite streams_of_unfold, E'. f_equal.
    apply (IH (List.length xs')); [lia | reflexivity].
  - rewrite streams_of_unfold.
    destruct (match_descriptor (Bytes.quoted_tail q xs)) as [[gs rest]|] eqn:E'.
    { destruct (match_repr_to_decode q xs gs rest Hq E') as (xs' & E'').
      congruence. }
    destruct xs as [|x xs].
    + reflexivity.
    + rewrite decode_cons. unfold Bytes.quoted_tail. cbn [Bytes.escape].
      destruct (Bytes.plain q (ascii_of_byte x)) eqn:Hx.
      * rewrite (repr_byte_plain q x Hx). cbn [append].
        apply (IH (List.length xs)); [subst n; simpl; lia | reflexivity].
      * destruct (repr_byte_escape q x Hq Hx) as (w & -> & Hw).
        cbn [append]. rewrite append_assoc, streams_of_skip_word by assumption.
        apply (IH (List.length xs)); [subst n; simpl; lia | reflexivity].
Qed.

(** The streams found in [str(stderr)] are those of the probe output
    itself: [repr] neither hides nor creates a match of the pattern. *)
Lemma streams_of_repr (b : Bytes.bytes) :
  streams_of (Bytes.repr b) = streams_of (Bytes.decode b).
Proof.
  unfold Bytes.repr.
  pose proof (quote_for_is_quote b) as Hq.
  rewrite streams_of_skip by reflexivity.
  rewrite streams_of_skip by (destruct Hq as [-> | ->]; reflexivity).
  now apply streams_of_quoted_tail.
Qed.

Lemma select_japanese_track_repr (b : Bytes.bytes) :
  select_japanese_track (Bytes.repr b)
  = select_japanese_track (Bytes.decode b).
Proof. unfold select_japanese_track. now rewrite streams_of_repr. Qed.

(** ** Paths *)

Import Pathlib.

Lemma split_sep_sep_free (s : string) :
  sep_free s = true -> split_sep s = [s].
Proof.
  induction s as [|c s IH]; [reflexivity|].
  unfold sep_free. cbn [forall_char split_sep]. intros H.
  apply andb_true_iff in H as [Hc Hs].
  apply negb_true_iff in Hc. rewrite Hc.
  now rewrite (IH Hs).
Qed.

Lemma split_sep_all_sep_free (s : string) :
  Forall (fun x => sep_free x = true) (split_sep s).
Proof.
  induction s as [|c s IH]; cbn [split_sep].
  - repeat constructor.
  - destruct (is_sep c) eqn:Hc.
    + constructor; [reflexivity | assumption].
    + destruct (split_sep s) as [|h t]; inversion IH; subst.
      * repeat constructor. unfold sep_free. simpl. now rewrite Hc.
      * constructor; [|assumption].
        unfold sep_free in *. cbn [forall_char]. now rewrite Hc.
Qed.

Lemma component_ok_iff (x : string) :
  component_ok x = true
  <-> x <> "" /\ x <> "." /\ sep_free x = true.
Proof.
  unfold component_ok.
  rewrite !andb_true_iff, !negb_true_iff, !String.eqb_neq. tauto.
Qed.

Lemma segments_component (x : string) :
  component_ok x = true -> segments x = [x].
Proof.
  intros H. unfold segments.
  apply component_ok_iff in H as (H1 & H2 & H3).
  rewrite (split_sep_sep_free x H3). cbn [filter].
  apply String.eqb_neq in H1, H2. now rewrite H1, H2.
Qed.

Lemma parse_component (x : string) :
  component_ok x = true -> parse x = mkPath "" [x].
Proof.
  intros H. unfold parse.
  assert (Hr : splitroot x = ("", x)).
  { apply component_ok_iff in H as (_ & _ & H3).
    destruct x as [|c x]; [reflexivity|].
    unfold sep_free in H3. cbn [forall_char] in H3.
    apply andb_true_iff in H3 as [Hc _]. apply negb_true_iff in Hc.
    cbn [splitroot]. now rewrite Hc. }
  rewrite Hr. now rewrite segments_component.
Qed.

(** Every path [Path(s)] builds satisfies the invariant. *)
Lemma parse_wf (s : string) : wf (parse s).
Proof.
  unfold wf, parse. destruct (splitroot s) as [rt rel]. cbn [tail].
  unfold segments. apply Forall_forall. intros x Hx.
  apply filter_In in Hx as [Hx Hf].
  pose proof (split_sep_all_sep_free rel) as Hall.
  rewrite Forall_forall in Hall. specialize (Hall x Hx).
  unfold component_ok. now rewrite Hf, Hall.
Qed.

Lemma entry_name_component (n : string) :
  entry_name_ok n = true -> component_ok n = true.
Proof.
  unfold entry_name_ok, component_ok. rewrite !andb_true_iff.
  intros [[[H1 H2] H3] _]. auto.
Qed.

Lemma make_child_relpath_wf (p : Path) (n : string) :
  wf p -> entry_name_ok n = true -> wf (make_child_relpath p n).
Proof.
  intros Hp Hn. unfold wf, make_child_relpath. cbn [tail].
  apply Forall_app. split; [exact Hp|].
  constructor; [now apply entry_name_component | constructor].
Qed.

Lemma truediv_component (p : Path) (x : string) :
  component_ok x = true -> truediv p x = make_child_relpath p x.
Proof.
  intros H. unfold truediv. now rewrite (parse_component x H).
Qed.

Lemma name_make_child (p : Path) (x : string) :
  name (make_child_relpath p x) = x.
Proof. unfold name, make_child_relpath. cbn [tail]. apply last_last. Qed.

Lemma parent_make_child (p : Path) (x : string) :
  parent (make_child_relpath p x) = p.
Proof.
  unfold parent, make_child_relpath. cbn [tail root].
  destruct (tail p ++ [x])%list eqn:E.
  - now apply app_eq_nil in E as [_ E].
  - rewrite <- E, removelast_last. now destruct p.
Qed.

Lemma sep_free_take (n : nat) (s : string) :
  sep_free s = true -> sep_free (take n s) = true.
Proof.
  unfold sep_free. revert s; induction n as [|n IH]; intros [|c s];
    cbn [take forall_char]; try reflexivity.
  intros H. apply andb_true_iff in H as [Hc Hs]. now rewrite Hc, IH.
Qed.

Lemma sep_free_append (a b : string) :
  sep_free a = true -> sep_free b = true -> sep_free (a ++ b) = true.
Proof.
  unfold sep_free. intros Ha Hb. induction a as [|c a IH]; [exact Hb|].
  cbn [append forall_char] in *.
  apply andb_true_iff in Ha as [Hc Ha]. now rewrite Hc, IH.
Qed.

Lemma name_sep_free (p : Path) : wf p -> sep_free (name p) = true.
Proof.
  unfold wf, name. intros H.
  destruct (tail p) as [|x t] using rev_ind; [reflexivity|].
  rewrite last_last. apply Forall_app in H as [_ H].
  inversion H as [|? ? Hx _]; subst.
  now apply component_ok_iff in Hx as (_ & _ & Hx).
Qed.

Lemma stem_sep_free (p : Path) : wf p -> sep_free (stem p) = true.
Proof.
  intros H. unfold stem.
  destruct ((0 <? rfind "." (name p))
            && (rfind "." (name p) <? len (name p) - 1))%Z.
  - apply sep_free_take. now apply name_sep_free.
  - now apply name_sep_free.
Qed.

Lemma mp3_name_component (s : string) :
  sep_free s = true -> component_ok (s ++ ".mp3") = true.
Proof.
  intros H. apply component_ok_iff. repeat split.
  - destruct s; discriminate.
  - destruct s as [|c [|c' s]]; discriminate.
  - apply sep_free_append; [assumption | reflexivity].
Qed.

Lemma output_path_child (b : Path) :
  wf b ->
  truediv (parent b) (stem b ++ ".mp3")
  = make_child_relpath (parent b) (stem b ++ ".mp3").
Proof.
  intros H. apply truediv_component, mp3_name_component.
  now apply stem_sep_free.
Qed.

Lemma stem_suffix (p : Path) : name p = stem p ++ suffix p.
Proof.
  unfold stem, suffix.
  destruct ((0 <? rfind "." (name p))
            && (rfind "." (name p) <? len (name p) - 1))%Z.
  - now rewrite take_drop.
  - now rewrite append_nil_r.
Qed.

(** ** The batch runner *)

(** [get_japanese_audio_track] runs the probe once; when the probe could
    not be started the error leaves the function, otherwise it selects on
    what the probe wrote to its error stream. *)
Lemma get_japanese_audio_track_selects
    (subprocess_run : string -> CompletedProcess)
    (subprocess_error : string -> option string) (video_file : Path) :
  get_japanese_audio_track subprocess_run subprocess_error video_file =
  ([SubprocessRun ("ffprobe " ++ quoted (str video_file))],
   match subprocess_error ("ffprobe " ++ quoted (str video_file)) with
   | Some message => Raise (OSError message)
   | None =>
       select_japanese_track
         (Bytes.decode
            (stderr
               (subprocess_run ("ffprobe " ++ quoted (str video_file)))))
   end).
Proof.
  unfold get_japanese_audio_track, run, lift, emit, ret, bind.
  destruct (subprocess_error ("ffprobe " ++ quoted (str video_file)));
    cbn [app]; [reflexivity | now rewrite select_japanese_track_repr].
Qed.

(** The three ways a task goes on after the probe. *)
Lemma extract_audio_unfold
    (subprocess_run : string -> CompletedProcess)
    (subprocess_error : string -> option string) (video_file : Path) :
  extract_audio subprocess_run subprocess_error video_file =
  match snd (get_japanese_audio_track subprocess_run subprocess_error
               video_file) with
  | Return track_index =>
      ([SubprocessRun ("ffprobe " ++ quoted (str video_file));
        Print ("Extracting audio from " ++ str video_file ++ newline);
        SubprocessRun
          (ffmpeg_cmd video_file track_index
             (str (output_path video_file)))],
       started subprocess_error
         (ffmpeg_cmd video_file track_index (str (output_path video_file))))
  | Raise JapaneseNotFoundException =>
      ([SubprocessRun ("ffprobe " ++ quoted (str video_file));
        Print "No Japanese audio track found."],
       Return tt)
  | Raise e =>
      ([SubprocessRun ("ffprobe " ++ quoted (str video_file))], Raise e)
  end.
Proof.
  unfold extract_audio, try_except, bind at 1.
  rewrite get_japanese_audio_track_selects. cbn [fst snd].
  destruct (match subprocess_error ("ffprobe " ++ quoted (str video_file))
            with Some _ => _ | None => _ end) as [track|[|message]].
  - unfold print, run, started, emit, ret, lift, bind.
    destruct (subprocess_error (ffmpeg_cmd _ _ _)); reflexivity.
  - reflexivity.
  - reflexivity.
Qed.

Lemma extract_audio_found (subprocess_run : string -> CompletedProcess)
    (subprocess_error : string -> option string)
    (video_file : Path) (track_index : string) :
  snd (get_japanese_audio_track subprocess_run subprocess_error video_file)
  = Return track_index ->
  extract_audio subprocess_run subprocess_error video_file =
  ([SubprocessRun ("ffprobe " ++ quoted (str video_file));
    Print ("Extracting audio from " ++ str video_file ++ newline);
    SubprocessRun
      (ffmpeg_cmd video_file track_index (str (output_path video_file)))],
   started subprocess_error
     (ffmpeg_cmd video_file track_index (str (output_path video_file)))).
Proof. intros H. now rewrite extract_audio_unfold, H. Qed.

Example get_japanese_audio_track_docstring_example :
  get_japanese_audio_track
    (fun _ => mkCompleted 0 [] (list_byte_of_string docstring_example))
    (fun _ => None)
    (parse "/videos/ep.1.mkv")
  = ([SubprocessRun ("ffprobe " ++ quoted "/videos/ep.1.mkv")], Return "0:2").
Proof. vm_compute. reflexivity. Qed.

Example extract_audio_docstring_example :
  extract_audio
    (fun _ => mkCompleted 0 [] (list_byte_of_string docstring_example))
    (fun _ => None)
    (parse "/videos/ep.1.mkv")
  = ([SubprocessRun ("ffprobe " ++ quoted "/videos/ep.1.mkv");
      Print ("Extracting audio from /videos/ep.1.mkv" ++ newline);
      SubprocessRun
        ("ffmpeg -i " ++ quoted "/videos/ep.1.mkv" ++ " -q:a 0 -map 0:2 "
           ++ quoted "/videos/ep.1.mp3")],
     Return tt).
Proof. vm_compute. reflexivity. Qed.

(** C6.  The output path is computed from the input path alone, by
    [output_path]: its name is the stem of the input followed by [.mp3],
    whatever the extension of the input was, and its parent is the parent
    of the input.  Whatever the probe answers and whichever track is
    selected, this is the output file handed to [ffmpeg]; the task then
    returns normally, unless [ffmpeg] could not be started, in which case
    that error leaves the task. *)
Theorem output_path_from_input_alone (video_file : Path) :
  wf video_file ->
  name video_file = stem video_file ++ suffix video_file
  /\ name (output_path video_file) = stem video_file ++ ".mp3"
  /\ parent (output_path video_file) = parent video_file
  /\ forall subprocess_run subprocess_error track_index,
       snd (get_japanese_audio_track subprocess_run subprocess_error
              video_file)
       = Return track_index ->
       exists trace,
         extract_audio subprocess_run subprocess_error video_file
         = ((trace ++
             [SubprocessRun
                (ffmpeg_cmd video_file track_index
                   (str (output_path video_file)))])%list,
            match subprocess_error
                    (ffmpeg_cmd video_file track_index
                       (str (output_path video_file))) with
            | Some message => Raise (OSError message)
            | None => Return tt
            end).
Proof.
  intros Hwf. unfold output_path. rewrite (output_path_child _ Hwf).
  split; [apply stem_suffix|]. split; [apply name_make_child|].
  split; [apply parent_make_child|].
  intros subprocess_run subprocess_error track_index H.
  exists [SubprocessRun ("ffprobe " ++ quoted (str video_file));
          Print ("Extracting audio from " ++ str video_file ++ newline)].
  rewrite (extract_audio_found _ _ _ _ H).
  unfold started, output_path. now rewrite (output_path_child _ Hwf).
Qed.

Lemma output_path_from_input_alone_witness :
  name (output_path (parse "/videos/Dragon.Ball.KAI.90.mkv"))
  = stem (parse "/videos/Dragon.Ball.KAI.90.mkv") ++ ".mp3"
  /\ str (output_path (parse "/videos/Dragon.Ball.KAI.90.mkv"))
     = "/videos/Dragon.Ball.KAI.90.mp3".
Proof.
  split.
  - apply (output_path_from_input_alone
             (parse "/videos/Dragon.Ball.KAI.90.mkv")).
    apply parse_wf.
  - vm_compute. reflexivity.
Defined.

(** C7.  The list [video_files] holds exactly the immediate entries of
    the folder, each the folder joined with a name [os.listdir] returned,
    that are files and whose suffix, lower-cased, is [.mkv] or [.mp4];
    every other entry is left out.  The parent of a kept path is the
    folder itself. *)
Theorem video_files_exactly
    (os_listdir : Path -> list string) (is_file : Path -> bool)
    (folder p : Path) :
  (In p (video_files os_listdir is_file folder)
   <-> (exists entry,
          In entry (os_listdir folder)
          /\ p = make_child_relpath folder entry)
       /\ is_file p = true
       /\ (lower (suffix p) = ".mkv" \/ lower (suffix p) = ".mp4"))
  /\ (In p (video_files os_listdir is_file folder) -> parent p = folder).
Proof.
  assert (Hiff :
    In p (video_files os_listdir is_file folder)
    <-> (exists entry,
           In entry (os_listdir folder)
           /\ p = make_child_relpath folder entry)
        /\ is_file p = true
        /\ (lower (suffix p) = ".mkv" \/ lower (suffix p) = ".mp4")).
  { unfold video_files, iterdir, VIDEO_EXTS.
    rewrite filter_In, in_map_iff, andb_true_iff. cbn [existsb].
    rewrite orb_false_r, orb_true_iff, !String.eqb_eq.
    split.
    - intros [(entry & <- & Hin) [Hf Hs]]. split; [now exists entry|].
      split; [assumption|]. destruct Hs; auto.
    - intros [(entry & Hin & ->) [Hf Hs]]. split; [now exists entry|].
      split; [assumption|]. destruct Hs; auto. }
  split; [exact Hiff|].
  intros H. apply Hiff in H as [(entry & _ & ->) _].
  apply parent_make_child.
Qed.

Example video_files_sample :
  map str
    (video_files
       (fun _ => ["a.mkv"; "b.MP4"; "c.txt"; "season.mkv"; "notes"; ".mkv"])
       (fun p => negb (String.eqb (name p) "season.mkv"))
       (parse "videos"))
  = ["videos/a.mkv"; "videos/b.MP4"].
Proof. vm_compute. reflexivity. Qed.

(** C8.  When the selection raises [JapaneseNotFoundException], the task
    runs the probe, prints the one notice [No Japanese audio track found.]
    and returns normally: no [ffmpeg] command is run, so no audio file is
    written, and the exception does not reach the caller. *)
Theorem extract_audio_skips_when_not_found
    (subprocess_run : string -> CompletedProcess)
    (subprocess_error : string -> option string) (video_file : Path) :
  snd (get_japanese_audio_track subprocess_run subprocess_error video_file)
  = Raise JapaneseNotFoundException ->
  extract_audio subprocess_run subprocess_error video_file =
  ([SubprocessRun ("ffprobe " ++ quoted (str video_file));
    Print "No Japanese audio track found."],
   Return tt).
Proof. intros H. now rewrite extract_audio_unfold, H. Qed.

Lemma extract_audio_skips_when_not_found_witness :
  extract_audio
    (fun _ =>
       mkCompleted 0 []
         (list_byte_of_string
            "  Stream #0:1(eng): Audio: aac,  Stream #0:2(eng): Audio: ac3"))
    (fun _ => None)
    (parse "videos/b.mp4")
  = ([SubprocessRun ("ffprobe " ++ quoted "videos/b.mp4");
      Print "No Japanese audio track found."],
     Return tt).
Proof.
  apply (extract_audio_skips_when_not_found _ _ (parse "videos/b.mp4")).
  vm_compute. reflexivity.
Defined.

(** C10.  Two paths of [video_files] with the same stem (for instance
    [a.mkv] and [a.mp4] of the same folder) have the same output path: both
    extraction tasks write to the same file. *)
Theorem same_stem_same_output
    (os_listdir : Path -> list string) (is_file : Path -> bool)
    (folder p q : Path) :
  In p (video_files os_listdir is_file folder) ->
  In q (video_files os_listdir is_file folder) ->
  stem p = stem q ->
  output_path p = output_path q
  /\ str (output_path p) = str (output_path q).
Proof.
  intros Hp Hq Hstem.
  assert (Hparent : forall x,
            In x (video_files os_listdir is_file folder) -> parent x = folder).
  { intros x Hx. unfold video_files, iterdir in Hx.
    apply filter_In in Hx as [Hx _].
    apply in_map_iff in Hx as (entry & <- & _). apply parent_make_child. }
  assert (E : output_path p = output_path q).
  { unfold output_path. now rewrite (Hparent p Hp), (Hparent q Hq), Hstem. }
  split; [exact E | now rewrite E].
Qed.

Lemma same_stem_same_output_witness :
  output_path (parse "videos/a.mkv") = output_path (parse "videos/a.mp4")
  /\ str (output_path (parse "videos/a.mkv"))
     = str (output_path (parse "videos/a.mp4")).
Proof.
  apply (same_stem_same_output
           (fun _ => ["a.mkv"; "a.mp4"; "c.txt"]) (fun _ => true)
           (parse "videos")).
  - vm_compute. left. reflexivity.
  - vm_compute. right. left. reflexivity.
  - vm_compute. reflexivity.
Defined.

Example same_stem_output_is_a_mp3 :
  str (output_path (parse "videos/a.mkv")) = "videos/a.mp3"
  /\ str (output_path (parse "videos/a.mp4")) = "videos/a.mp3".
Proof. vm_compute. split; reflexivity. Qed.

(* ================================================================== *)
(** * Further properties of the script *)

(** ** What the pattern leaves out *)

Lemma match_descriptor_needs_paren (l : string) (c : ascii) (rest : string) :
  Probe.label_ok l = true -> Ascii.eqb "(" c = false ->
  match_descriptor ("Stream #" ++ l ++ String c rest) = None.
Proof.
  intros Hl Hc.
  destruct l as [|d1 [|x [|d2 [|]]]]; try discriminate.
  unfold match_descriptor. rewrite strip_prefix_append. cbn [append].
  rewrite Hc. now rewrite andb_false_r.
Qed.

Lemma streams_of_skip_label (l s : string) :
  Probe.label_ok l = true ->
  streams_of ("tream #" ++ l ++ s) = streams_of s.
Proof.
  intros Hl.
  destruct l as [|d1 [|x [|d2 [|]]]]; try discriminate.
  cbn [Probe.label_ok] in Hl.
  apply andb_true_iff in Hl as [Hl Hd2].
  apply andb_true_iff in Hl as [Hd1 Hx].
  apply Ascii.eqb_eq in Hx. subst x.
  cbn [append].
  repeat (rewrite streams_of_skip
            by (reflexivity || now apply is_digit_not_S)).
  reflexivity.
Qed.

(** X2.  A stream line in which the label [digit:digit] is not directly
    followed by the parenthesis of a language tag is passed over: this is
    so for a stream index of two digits ([Stream #0:10(jpn): Audio]), for
    a stream identifier in brackets ([Stream #0:1[0x2](jpn): Audio]) and
    for a line without a tag.  The scan goes on right after the label and
    the line contributes no stream. *)
Theorem label_must_be_followed_by_tag (l : string) (c : ascii) (rest : string) :
  Probe.label_ok l = true ->
  Ascii.eqb "(" c = false ->
  match_at AUDIO_STREAM_RE ("Stream #" ++ l ++ String c rest) = None
  /\ streams_of ("Stream #" ++ l ++ String c rest)
     = streams_of (String c rest).
Proof.
  intros Hl Hc. rewrite match_at_AUDIO_STREAM_RE.
  pose proof (match_descriptor_needs_paren l c rest Hl Hc) as Hm.
  split; [exact Hm|].
  rewrite streams_of_unfold, Hm.
  change ("Stream #" ++ l ++ String c rest)
    with (String "S" ("tream #" ++ l ++ String c rest)).
  cbv iota. now apply streams_of_skip_label.
Qed.

Lemma label_must_be_followed_by_tag_witness :
  streams_of ("Stream #0:1" ++ String "0" "(jpn): Audio: aac")
  = streams_of (String "0" "(jpn): Audio: aac").
Proof.
  apply (label_must_be_followed_by_tag "0:1" "0" "(jpn): Audio: aac");
    reflexivity.
Defined.

(** A literal that holds a character other than a letter, and no closing
    parenthesis, cannot be read off a run of letters closed by a
    parenthesis. *)
Lemma strip_prefix_letters_blocked (p t rest : string) :
  forall_char Probe.is_alpha t = true ->
  forall_char (fun c => negb (Ascii.eqb c ")")) p = true ->
  forall_char Probe.is_alpha p = false ->
  strip_prefix p (t ++ String ")" rest) = None.
Proof.
  revert t; induction p as [|x p IH]; intros t Ht Hp Hx; [discriminate|].
  cbn [forall_char] in Hp, Hx.
  apply andb_true_iff in Hp as [Hx1 Hp]. apply negb_true_iff in Hx1.
  destruct t as [|a t]; cbn [append strip_prefix].
  - now rewrite Hx1.
  - destruct (Ascii.eqb_spec x a) as [->|]; [|reflexivity].
    cbn [forall_char] in Ht. apply andb_true_iff in Ht as [Ha Ht].
    rewrite Ha in Hx. now apply IH.
Qed.

Lemma streams_of_skip_tag (t rest : string) :
  forall_char Probe.is_alpha t = true ->
  streams_of (t ++ String ")" rest) = streams_of rest.
Proof.
  intros Ht. induction t as [|a t IH].
  - cbn [append]. now rewrite streams_of_skip.
  - rewrite streams_of_unfold.
    replace (match_descriptor (String a t ++ String ")" rest))
      with (@None (list string * string)).
    + cbn [append forall_char] in *.
      apply andb_true_iff in Ht as [_ Ht]. now apply IH.
    + unfold match_descriptor.
      now rewrite (strip_prefix_letters_blocked "Stream #" (String a t) rest).
Qed.

(** X3.  Only audio streams are counted: a stream line whose kind is not
    [Audio] (a video or a subtitle stream, say), is passed over whole,
    whatever its language tag, [jpn] included. *)
Theorem other_stream_kinds_are_not_counted (l t s : string) :
  Probe.label_ok l = true ->
  Probe.tag_ok t = true ->
  starts_with "Audio" s = false ->
  match_at AUDIO_STREAM_RE ("Stream #" ++ l ++ "(" ++ t ++ "): " ++ s) = None
  /\ streams_of ("Stream #" ++ l ++ "(" ++ t ++ "): " ++ s) = streams_of s.
Proof.
  intros Hl Ht Hs. rewrite match_at_AUDIO_STREAM_RE.
  apply andb_true_iff in Ht as [Hne Ht].
  assert (Hm : match_descriptor ("Stream #" ++ l ++ "(" ++ t ++ "): " ++ s)
               = None).
  { unfold match_descriptor. rewrite strip_prefix_append.
    destruct l as [|d1 [|x [|d2 [|]]]]; try discriminate.
    cbn [Probe.label_ok] in Hl.
    apply andb_true_iff in Hl as [Hl Hd2].
    apply andb_true_iff in Hl as [Hd1 Hx].
    apply Ascii.eqb_eq in Hx. subst x.
    cbn [append]. rewrite Hd1, Hd2. cbn [Ascii.eqb Bool.eqb andb].
    rewrite (span_append Probe.is_alpha t _ Ht) by reflexivity.
    destruct t as [|a t]; [discriminate|].
    unfold starts_with in Hs.
    destruct (strip_prefix "Audio" s) eqn:E; [discriminate|].
    change (strip_prefix "): Audio" (String ")" (String ":" (String " " s))))
      with (strip_prefix "Audio" s).
    now rewrite E. }
  split; [exact Hm|].
  rewrite streams_of_unfold, Hm.
  change ("Stream #" ++ l ++ "(" ++ t ++ "): " ++ s)
    with (String "S" ("tream #" ++ l ++ "(" ++ t ++ "): " ++ s)).
  cbv iota. rewrite (streams_of_skip_label l _ Hl).
  cbn [append]. rewrite streams_of_skip by reflexivity.
  rewrite streams_of_skip_tag by assumption.
  now rewrite !streams_of_skip by reflexivity.
Qed.

Lemma other_stream_kinds_are_not_counted_witness :
  streams_of ("Stream #0:3" ++ "(" ++ "jpn" ++ "): " ++ "Subtitle: subrip")
  = streams_of "Subtitle: subrip".
Proof.
  apply (other_stream_kinds_are_not_counted "0:3" "jpn" "Subtitle: subrip");
    reflexivity.
Defined.

(** ** The comparison with [jpn] *)

Lemma lower_char_j (c : ascii) :
  lower_char c = "j"%char <-> c = "j"%char \/ c = "J"%char.
Proof.
  split.
  - destruct c as [[] [] [] [] [] [] [] []]; vm_compute; intros H;
      try discriminate H; auto.
  - intros [-> | ->]; reflexivity.
Qed.

Lemma lower_char_p (c : ascii) :
  lower_char c = "p"%char <-> c = "p"%char \/ c = "P"%char.
Proof.
  split.
  - destruct c as [[] [] [] [] [] [] [] []]; vm_compute; intros H;
      try discriminate H; auto.
  - intros [-> | ->]; reflexivity.
Qed.

Lemma lower_char_n (c : ascii) :
  lower_char c = "n"%char <-> c = "n"%char \/ c = "N"%char.
Proof.
  split.
  - destruct c as [[] [] [] [] [] [] [] []]; vm_compute; intros H;
      try discriminate H; auto.
  - intros [-> | ->]; reflexivity.
Qed.

(** X4.  The test [language.lower() == "jpn"] accepts exactly the eight
    spellings of [jpn] that differ by the case of the letters, and nothing
    else: no longer tag such as [jpnx], no other language. *)
Theorem is_jpn_exactly_the_case_variants (language : string) :
  Probe.is_jpn language = true <-> In language jpn_spellings.
Proof.
  unfold Probe.is_jpn. rewrite String.eqb_eq. split.
  - destruct language as [|a [|b [|c [|d rest]]]]; cbn [lower];
      try discriminate.
    intros [= Ha Hb Hc].
    apply lower_char_j in Ha. apply lower_char_p in Hb.
    apply lower_char_n in Hc.
    destruct Ha as [-> | ->], Hb as [-> | ->], Hc as [-> | ->];
      unfold jpn_spellings; cbn [In]; auto 10.
  - unfold jpn_spellings. cbn [In].
    intros [<-|[<-|[<-|[<-|[<-|[<-|[<-|[<-|[]]]]]]]]]; reflexivity.
Qed.

(** ** One task *)

Lemma extract_audio_not_found (subprocess_run : string -> CompletedProcess)
    (subprocess_error : string -> option string) (video_file : Path) :
  snd (get_japanese_audio_track subprocess_run subprocess_error video_file)
  = Raise JapaneseNotFoundException ->
  extract_audio subprocess_run subprocess_error video_file =
  ([SubprocessRun ("ffprobe " ++ quoted (str video_file));
    Print "No Japanese audio track found."],
   Return tt).
Proof. intros H. now rewrite extract_audio_unfold, H. Qed.

(** X1.  [get_japanese_audio_track] runs one command, [ffprobe] on the
    quoted path.  When the probe could be started it selects on the bytes
    the probe wrote to its error stream: turning them into text with
    [str], which wraps them in quotes and escapes the bytes that are not
    printable, hides no stream and adds none.  When the probe could not be
    started, the error of [subprocess.run] leaves the function. *)
Theorem probe_is_read_from_stderr
    (subprocess_run : string -> CompletedProcess)
    (subprocess_error : string -> option string) (video_file : Path) :
  get_japanese_audio_track subprocess_run subprocess_error video_file =
  ([SubprocessRun ("ffprobe " ++ quoted (str video_file))],
   match subprocess_error ("ffprobe " ++ quoted (str video_file)) with
   | Some message => Raise (OSError message)
   | None =>
       select_japanese_track
         (Bytes.decode
            (stderr
               (subprocess_run ("ffprobe " ++ quoted (str video_file)))))
   end)
  /\ streams_of
       (Bytes.repr
          (stderr (subprocess_run ("ffprobe " ++ quoted (str video_file)))))
     = streams_of
         (Bytes.decode
            (stderr (subprocess_run ("ffprobe " ++ quoted (str video_file))))).
Proof.
  split; [apply get_japanese_audio_track_selects | apply streams_of_repr].
Qed.

Lemma no_stream_marker_no_streams (text : string) :
  ~ occurs_in "Stream #" text -> streams_of text = [].
Proof.
  intros H. destruct (streams_of text) as [|[l t] rest] eqn:E; [reflexivity|].
  exfalso. apply H.
  assert (Hin : In (l, t) (streams_of text)) by (rewrite E; now left).
  apply streams_of_sound in Hin as (_ & _ & pre & post & ->).
  exists pre, (l ++ "(" ++ t ++ "): Audio" ++ post).
  now rewrite !append_assoc.
Qed.

(** X5.  When the probe could be started but what it wrote to its error
    stream holds no [Stream #] at all (nothing was written, or only an
    error message of the probe itself), the task reports
    [No Japanese audio track found.] and runs no [ffmpeg]: a failed probe
    is not told apart from a file without a Japanese track. *)
Theorem failed_probe_is_reported_as_no_track
    (subprocess_run : string -> CompletedProcess)
    (subprocess_error : string -> option string) (video_file : Path) :
  subprocess_error ("ffprobe " ++ quoted (str video_file)) = None ->
  ~ occurs_in "Stream #"
      (Bytes.decode
         (stderr (subprocess_run ("ffprobe " ++ quoted (str video_file))))) ->
  get_japanese_audio_track subprocess_run subprocess_error video_file
  = ([SubprocessRun ("ffprobe " ++ quoted (str video_file))],
     Raise JapaneseNotFoundException)
  /\ extract_audio subprocess_run subprocess_error video_file
     = ([SubprocessRun ("ffprobe " ++ quoted (str video_file));
         Print "No Japanese audio track found."],
        Return tt).
Proof.
  intros Hstart H.
  assert (Hg : get_japanese_audio_track subprocess_run subprocess_error
                 video_file
               = ([SubprocessRun ("ffprobe " ++ quoted (str video_file))],
                  Raise JapaneseNotFoundException)).
  { rewrite get_japanese_audio_track_selects, Hstart.
    rewrite select_japanese_track_cases.
    now rewrite (no_stream_marker_no_streams _ H). }
  split; [exact Hg|].
  apply extract_audio_not_found. now rewrite Hg.
Qed.

Lemma not_occurs_in_empty (sub : string) : sub <> "" -> ~ occurs_in sub "".
Proof.
  intros Hne (pre & post & H). destruct pre; [|discriminate].
  destruct sub; [now apply Hne | discriminate].
Qed.

Lemma failed_probe_is_reported_as_no_track_witness :
  extract_audio (fun _ => mkCompleted 1 [] []) (fun _ => None)
    (parse "videos/broken.mkv")
  = ([SubprocessRun ("ffprobe " ++ quoted "videos/broken.mkv");
      Print "No Japanese audio track found."],
     Return tt).
Proof.
  apply (failed_probe_is_reported_as_no_track
           (fun _ => mkCompleted 1 [] []) (fun _ => None)
           (parse "videos/broken.mkv")).
  - reflexivity.
  - apply not_occurs_in_empty. discriminate.
Defined.

Lemma select_japanese_track_outcome (probe_text : string) :
  (exists index, select_japanese_track probe_text = Return index)
  \/ select_japanese_track probe_text = Raise JapaneseNotFoundException.
Proof.
  rewrite select_japanese_track_cases.
  destruct (streams_of probe_text) as [|[i t] [|y rest]].
  - now right.
  - left. now exists i.
  - apply look_for_japanese_outcome.
Qed.

(** X6.  A task catches [JapaneseNotFoundException] and nothing else.  It
    ends with the error of [subprocess.run] when [ffprobe] could not be
    started, or when a track was selected and [ffmpeg] could not be
    started; in every other case it returns normally.  Beyond that, what
    it does is fixed by the error stream of the probe alone: the return
    codes and the other outputs of the two programs are never looked at. *)
Theorem extract_audio_outcome
    (subprocess_run : string -> CompletedProcess)
    (subprocess_error : string -> option string) (video_file : Path) :
  snd (extract_audio subprocess_run subprocess_error video_file)
  = match subprocess_error ("ffprobe " ++ quoted (str video_file)) with
    | Some message => Raise (OSError message)
    | None =>
        match select_japanese_track
                (Bytes.decode
                   (stderr
                      (subprocess_run
                         ("ffprobe " ++ quoted (str video_file))))) with
        | Return track_index =>
            match subprocess_error
                    (ffmpeg_cmd video_file track_index
                       (str (output_path video_file))) with
            | Some message => Raise (OSError message)
            | None => Return tt
            end
        | Raise _ => Return tt
        end
    end
  /\ forall other_run : string -> CompletedProcess,
       stderr (other_run ("ffprobe " ++ quoted (str video_file)))
       = stderr (subprocess_run ("ffprobe " ++ quoted (str video_file))) ->
       extract_audio other_run subprocess_error video_file
       = extract_audio subprocess_run subprocess_error video_file.
Proof.
  split.
  - rewrite extract_audio_unfold, get_japanese_audio_track_selects.
    cbn [snd].
    destruct (subprocess_error ("ffprobe " ++ quoted (str video_file)));
      [reflexivity|].
    destruct (select_japanese_track_outcome
                (Bytes.decode
                   (stderr
                      (subprocess_run
                         ("ffprobe " ++ quoted (str video_file))))))
      as [[track ->] | ->]; reflexivity.
  - intros other_run H.
    now rewrite !extract_audio_unfold, !get_japanese_audio_track_selects, H.
Qed.

(** X7.  Every command a task runs is either the probe of the file or
    one [ffmpeg] command for it, writing to [output_path]; the stream
    given to [-map] has the shape [digit:digit] and is the label of an
    audio stream line, [Stream #<label>(<tag>): Audio], that stands in what
    the probe wrote. *)
Theorem mapped_stream_comes_from_the_probe
    (subprocess_run : string -> CompletedProcess)
    (subprocess_error : string -> option string) (video_file : Path)
    (cmd : string) :
  In (SubprocessRun cmd)
     (fst (extract_audio subprocess_run subprocess_error video_file)) ->
  cmd = "ffprobe " ++ quoted (str video_file)
  \/ exists track_index tag,
       cmd = ffmpeg_cmd video_file track_index (str (output_path video_file))
       /\ Probe.label_ok track_index = true
       /\ occurs_in ("Stream #" ++ track_index ++ "(" ++ tag ++ "): Audio")
            (Bytes.decode
               (stderr
                  (subprocess_run ("ffprobe " ++ quoted (str video_file))))).
Proof.
  rewrite extract_audio_unfold, get_japanese_audio_track_selects. cbn [snd].
  destruct (subprocess_error ("ffprobe " ++ quoted (str video_file))).
  { cbn [fst In]. intros [[= <-]|[]]. now left. }
  destruct (select_japanese_track _) as [track|[|message]] eqn:E;
    cbn [fst In].
  - intros [[= <-]|[[=]|[[= <-]|[]]]]; [now left|].
    right. apply selected_streams_member in E as [tag Hin].
    apply streams_of_sound in Hin as (Hl & _ & Hocc).
    now exists track, tag.
  - intros [[= <-]|[[=]|[]]]. now left.
  - intros [[= <-]|[]]. now left.
Qed.

Lemma mapped_stream_comes_from_the_probe_witness :
  ("ffmpeg -i " ++ quoted "ep.mkv" ++ " -q:a 0 -map 0:2 " ++ quoted "ep.mp3"
   = "ffprobe " ++ quoted (str (parse "ep.mkv")))
  \/ exists track_index tag,
       "ffmpeg -i " ++ quoted "ep.mkv" ++ " -q:a 0 -map 0:2 "
         ++ quoted "ep.mp3"
       = ffmpeg_cmd (parse "ep.mkv") track_index
           (str (output_path (parse "ep.mkv")))
       /\ Probe.label_ok track_index = true
       /\ occurs_in ("Stream #" ++ track_index ++ "(" ++ tag ++ "): Audio")
            (Bytes.decode (list_byte_of_string docstring_example)).
Proof.
  apply (mapped_stream_comes_from_the_probe
           (fun _ => mkCompleted 0 [] (list_byte_of_string docstring_example))
           (fun _ => None) (parse "ep.mkv")).
  vm_compute. right. right. left. reflexivity.
Defined.

(** ** The files of the batch *)

Lemma rfind_absent (c : ascii) (s : string) :
  forall_char (fun x => negb (Ascii.eqb x c)) s = true ->
  rfind c s = (-1)%Z.
Proof.
  induction s as [|a s IH]; [reflexivity|].
  cbn [forall_char rfind]. intros H.
  apply andb_true_iff in H as [Ha Hs]. apply negb_true_iff in Ha.
  rewrite (IH Hs). cbn. now rewrite Ha.
Qed.

Lemma rfind_last_dot (base ext : string) :
  dot_free ext = true ->
  rfind "." (base ++ String "." ext) = Z.of_nat (String.length base).
Proof.
  intros Hext. induction base as [|a base IH].
  - cbn [append rfind]. rewrite (rfind_absent "." ext Hext). reflexivity.
  - cbn [append rfind String.length]. rewrite IH.
    destruct (0 <=? Z.of_nat (String.length base))%Z eqn:E.
    + lia.
    + apply Z.leb_gt in E. lia.
Qed.

Lemma take_append_exact (a b : string) :
  take (String.length a) (a ++ b) = a.
Proof. induction a as [|x a IH]; [now destruct b | cbn; now rewrite IH]. Qed.

Lemma drop_append_exact (a b : string) :
  drop (String.length a) (a ++ b) = b.
Proof. induction a as [|x a IH]; [now destruct b | cbn; now rewrite IH]. Qed.

(** The stem and the suffix of a name made of a non-empty base, a dot and
    a non-empty extension without a dot. *)
Lemma stem_suffix_of_name (p : Path) (base ext : string) :
  name p = base ++ String "." ext ->
  base <> "" -> ext <> "" -> dot_free ext = true ->
  stem p = base /\ suffix p = String "." ext.
Proof.
  intros Hn Hb He Hd. unfold stem, suffix. rewrite Hn.
  rewrite (rfind_last_dot base ext Hd). unfold len.
  rewrite length_append. cbn [String.length].
  assert (H1 : 0 < String.length base) by (destruct base; [easy | cbn; lia]).
  assert (H2 : 0 < String.length ext) by (destruct ext; [easy | cbn; lia]).
  replace ((0 <? Z.of_nat (String.length base))
           && (Z.of_nat (String.length base)
               <? Z.of_nat (String.length base + S (String.length ext)) - 1))%Z
    with true.
  - rewrite Nat2Z.id. now rewrite take_append_exact, drop_append_exact.
  - symmetry. apply andb_true_iff. split; apply Z.ltb_lt; lia.
Qed.

Lemma append_inv_head (a b c : string) : a ++ b = a ++ c -> b = c.
Proof.
  induction a as [|x a IH]; [easy|]. cbn. intros [= H]. now apply IH.
Qed.

Lemma append_inv_tail (a b c : string) : a ++ c = b ++ c -> a = b.
Proof.
  revert b; induction a as [|x a IH]; intros [|y b] H.
  - reflexivity.
  - apply (f_equal String.length) in H. cbn in H.
    rewrite length_append in H. lia.
  - apply (f_equal String.length) in H. cbn in H.
    rewrite length_append in H. lia.
  - cbn in H. injection H as -> H. f_equal. now apply IH.
Qed.

Lemma video_suffix_shape (s : string) :
  existsb (String.eqb (lower s)) VIDEO_EXTS = true ->
  exists ext, s = String "." ext /\ ext <> "" /\ dot_free ext = true
              /\ s <> ".mp3".
Proof.
  unfold VIDEO_EXTS. cbn [existsb]. rewrite orb_false_r, orb_true_iff.
  rewrite !String.eqb_eq.
  assert (Hdot : forall c x, lower_char c = x ->
            x <> "."%char -> Ascii.eqb c "." = false).
  { intros c x Hc Hx. destruct (Ascii.eqb_spec c ".") as [->|]; [|easy].
    now subst x. }
  assert (Hd : forall c, lower_char c = "."%char -> c = "."%char).
  { intros c. destruct c as [[] [] [] [] [] [] [] []]; vm_compute;
      intros H; try discriminate H; reflexivity. }
  intros H.
  destruct s as [|c0 [|c1 [|c2 [|c3 [|c4 rest]]]]];
    try (destruct H as [H|H]; discriminate H).
  exists (String c1 (String c2 (String c3 ""))).
  assert (Hc0 : c0 = "."%char)
    by (destruct H as [H|H]; injection H as H0 _; now apply Hd).
  subst c0. split; [reflexivity|]. split; [discriminate|]. split.
  - unfold dot_free. cbn [forall_char lower] in *.
    destruct H as [H|H]; injection H as H1 H2 H3;
      rewrite (Hdot c1 _ H1), (Hdot c2 _ H2), (Hdot c3 _ H3);
      (reflexivity || discriminate).
  - intros E. rewrite E in H. destruct H as [H|H]; discriminate H.
Qed.

Lemma kept_stem_nonempty (p : Path) : suffix p <> "" -> stem p <> "".
Proof.
  unfold suffix, stem.
  destruct ((0 <? rfind "." (name p))
            && (rfind "." (name p) <? len (name p) - 1))%Z eqn:E;
    [|intros H; now elim H].
  intros _. apply andb_true_iff in E as [E1 E2].
  apply Z.ltb_lt in E1, E2. unfold len in E2.
  destruct (name p) as [|c s]; [cbn in E2; lia|].
  destruct (Z.to_nat (rfind "." (String c s))) eqn:En; [lia | discriminate].
Qed.

Lemma video_files_member
    (os_listdir : Path -> list string) (is_file : Path -> bool)
    (folder p : Path) :
  In p (video_files os_listdir is_file folder) ->
  (exists entry, In entry (os_listdir folder)
                 /\ p = make_child_relpath folder entry)
  /\ is_file p = true
  /\ existsb (String.eqb (lower (suffix p))) VIDEO_EXTS = true.
Proof.
  unfold video_files, iterdir. rewrite filter_In, in_map_iff, andb_true_iff.
  intros [(entry & <- & Hin) [Hf Hs]]. split; [now exists entry | now split].
Qed.

(** X8.  In a folder whose entries bear ordinary names, no task writes
    over a video file of the batch: the output path of a kept file has the
    suffix [.mp3], so it is none of the kept files, the file itself
    included.  A kept file has a non-empty stem, a name such as [.mkv]
    having no suffix at all. *)
Theorem no_task_overwrites_a_video_file
    (os_listdir : Path -> list string) (is_file : Path -> bool)
    (folder p q : Path) :
  wf folder ->
  Forall (fun entry => entry_name_ok entry = true) (os_listdir folder) ->
  In p (video_files os_listdir is_file folder) ->
  In q (video_files os_listdir is_file folder) ->
  stem p <> ""
  /\ suffix (output_path p) = ".mp3"
  /\ output_path p <> q.
Proof.
  intros Hwf Hnames Hp Hq.
  apply video_files_member in Hp as ((entry & Hin & ->) & _ & Hs).
  apply video_files_member in Hq as (_ & _ & Hsq).
  set (p := make_child_relpath folder entry) in *.
  assert (Hwfp : wf p).
  { apply make_child_relpath_wf; [assumption|].
    rewrite Forall_forall in Hnames. now apply Hnames. }
  assert (Hstem : stem p <> "").
  { apply kept_stem_nonempty.
    apply video_suffix_shape in Hs as (ext & -> & _). discriminate. }
  assert (Hout : suffix (output_path p) = ".mp3").
  { apply (stem_suffix_of_name (output_path p) (stem p) "mp3");
      [|assumption|discriminate|reflexivity].
    unfold output_path. rewrite (output_path_child _ Hwfp).
    apply name_make_child. }
  repeat split; try assumption.
  intros E. rewrite <- E, Hout in Hsq. discriminate Hsq.
Qed.

Lemma no_task_overwrites_a_video_file_witness :
  output_path (parse "videos/a.mkv") <> parse "videos/a.mp4".
Proof.
  apply (no_task_overwrites_a_video_file
           (fun _ => ["a.mkv"; "a.mp4"; "c.txt"]) (fun _ => true)
           (parse "videos")).
  - apply parse_wf.
  - repeat constructor.
  - vm_compute. left. reflexivity.
  - vm_compute. right. left. reflexivity.
Defined.

(** X9.  An entry of the folder that is a file and whose name is a
    non-empty base followed by [.mkv] or [.mp4], in any mix of upper and
    lower case, is kept, however many dots the base holds. *)
Theorem named_video_file_is_kept
    (os_listdir : Path -> list string) (is_file : Path -> bool)
    (folder : Path) (base ext : string) :
  In (base ++ ext) (os_listdir folder) ->
  is_file (make_child_relpath folder (base ++ ext)) = true ->
  base <> "" ->
  existsb (String.eqb (lower ext)) VIDEO_EXTS = true ->
  In (make_child_relpath folder (base ++ ext))
     (video_files os_listdir is_file folder)
  /\ stem (make_child_relpath folder (base ++ ext)) = base
  /\ suffix (make_child_relpath folder (base ++ ext)) = ext.
Proof.
  intros Hin Hf Hbase Hext.
  destruct (video_suffix_shape ext Hext) as (e & -> & He & Hd & _).
  destruct (stem_suffix_of_name
              (make_child_relpath folder (base ++ String "." e)) base e)
    as [Hstem Hsuffix]; try assumption; [apply name_make_child|].
  split; [|now split].
  unfold video_files, iterdir. apply filter_In. split.
  - apply in_map_iff. now exists (base ++ String "." e).
  - now rewrite Hf, Hsuffix, Hext.
Qed.

Lemma named_video_file_is_kept_witness :
  In (make_child_relpath (parse "videos") ("Dragon.Ball.KAI.90" ++ ".MkV"))
     (video_files (fun _ => ["notes.txt"; "Dragon.Ball.KAI.90.MkV"])
        (fun _ => true) (parse "videos")).
Proof.
  apply (named_video_file_is_kept
           (fun _ => ["notes.txt"; "Dragon.Ball.KAI.90.MkV"])
           (fun _ => true) (parse "videos") "Dragon.Ball.KAI.90" ".MkV").
  - right. left. reflexivity.
  - reflexivity.
  - discriminate.
  - reflexivity.
Defined.

(** ** The whole batch *)

Lemma interleaving_cons_nil (tasks : list (list event)) (trace : list event) :
  interleaving tasks trace -> interleaving ([] :: tasks) trace.
Proof.
  induction 1 as [tasks H | before after e t trace _ IH].
  - apply interleaving_finished. now constructor.
  - apply (interleaving_step ([] :: before) after e t trace IH).
Qed.

(** Running the tasks one after the other is one of the interleavings:
    a batch always has a trace. *)
Lemma interleaving_sequential (tasks : list (list event)) :
  interleaving tasks (concat tasks).
Proof.
  induction tasks as [|t tasks IH].
  - apply interleaving_finished. constructor.
  - cbn [concat]. induction t as [|e t IHt].
    + now apply interleaving_cons_nil.
    + apply (interleaving_step [] tasks e t _ IHt).
Qed.

Lemma count_app (f : event -> bool) (a b : list event) :
  count f (a ++ b) = count f a + count f b.
Proof. unfold count. now rewrite filter_app, length_app. Qed.

Lemma list_sum_cons (a : nat) (l : list nat) :
  list_sum (a :: l) = a + list_sum l.
Proof. reflexivity. Qed.

Lemma interleaving_count (f : event -> bool)
    (tasks : list (list event)) (trace : list event) :
  interleaving tasks trace ->
  count f trace = list_sum (map (count f) tasks).
Proof.
  induction 1 as [tasks H | before after e t trace _ IH].
  - induction H as [|t tasks -> _ IHt]; [reflexivity|].
    cbn [map]. now rewrite list_sum_cons, <- IHt.
  - rewrite map_app, list_sum_app in *. cbn [map] in *.
    rewrite list_sum_cons in *.
    unfold count in *. cbn [filter].
    destruct (f e); cbn [List.length]; lia.
Qed.

Lemma interleaving_In (tasks : list (list event)) (trace : list event)
    (e : event) :
  interleaving tasks trace -> In e trace ->
  exists t, In t tasks /\ In e t.
Proof.
  induction 1 as [tasks H | before after e' t trace _ IH]; [intros []|].
  intros [->|Hin].
  - exists (e :: t). split; [apply in_elt | now left].
  - destruct (IH Hin) as (t' & Ht' & He).
    apply in_app_or in Ht' as [Ht'|[E|Ht']].
    + exists t'. split; [apply in_or_app; now left | assumption].
    + subst t'. exists (e' :: t). split; [apply in_elt | now right].
    + exists t'. split; [|assumption].
      apply in_or_app. right. now right.
Qed.

(** What one task leaves: the probe alone when it could not be started,
    else the probe and the notice, or the probe, the notice of the
    extraction and the [ffmpeg] command. *)
Lemma extract_audio_trace
    (subprocess_run : string -> CompletedProcess)
    (subprocess_error : string -> option string) (video_file : Path) :
  match subprocess_error (ffprobe_cmd video_file) with
  | Some _ =>
      fst (extract_audio subprocess_run subprocess_error video_file)
      = [SubprocessRun (ffprobe_cmd video_file)]
  | None =>
      fst (extract_audio subprocess_run subprocess_error video_file)
      = [SubprocessRun (ffprobe_cmd video_file);
         Print "No Japanese audio track found."]
      \/ exists track_index,
           fst (extract_audio subprocess_run subprocess_error video_file)
           = [SubprocessRun (ffprobe_cmd video_file);
              Print ("Extracting audio from " ++ str video_file ++ newline);
              SubprocessRun
                (ffmpeg_cmd video_file track_index
                   (str (output_path video_file)))]
  end.
Proof.
  rewrite extract_audio_unfold, get_japanese_audio_track_selects.
  unfold ffprobe_cmd. cbn [snd].
  destruct (subprocess_error ("ffprobe " ++ quoted (str video_file)));
    [reflexivity|].
  destruct (select_japanese_track_outcome
              (Bytes.decode
                 (stderr
                    (subprocess_run
                       ("ffprobe " ++ quoted (str video_file))))))
    as [[track ->] | ->].
  - right. now exists track.
  - now left.
Qed.

Lemma main_sequential
    (subprocess_run : string -> CompletedProcess)
    (subprocess_error : string -> option string)
    (os_listdir : Path -> list string)
    (listdir_error : Path -> option string) (is_file : Path -> bool)
    (folder_to_convert : string) :
  listdir_error (parse folder_to_convert) = None ->
  main subprocess_run subprocess_error os_listdir listdir_error is_file
    folder_to_convert
    (Print "Scanning folder for video files"
       :: concat
            (map (fun v =>
                    fst (extract_audio subprocess_run subprocess_error v))
               (video_files os_listdir is_file (parse folder_to_convert)))
       ++ [Print "Conversion complete!"])
    (Return tt).
Proof.
  intros H. unfold main. rewrite H. eexists.
  split; [apply interleaving_sequential | split; reflexivity].
Qed.

Lemma main_count
    (subprocess_run : string -> CompletedProcess)
    (subprocess_error : string -> option string)
    (os_listdir : Path -> list string)
    (listdir_error : Path -> option string) (is_file : Path -> bool)
    (folder_to_convert : string) (trace : list event)
    (outcome : result unit) (f : event -> bool) :
  main subprocess_run subprocess_error os_listdir listdir_error is_file
    folder_to_convert trace outcome ->
  listdir_error (parse folder_to_convert) = None ->
  f (Print "Scanning folder for video files") = false ->
  f (Print "Conversion complete!") = false ->
  count f trace
  = list_sum
      (map (fun v =>
              count f (fst (extract_audio subprocess_run subprocess_error v)))
         (video_files os_listdir is_file (parse folder_to_convert))).
Proof.
  unfold main. intros Hmain Hl H1 H2. rewrite Hl in Hmain.
  destruct Hmain as (body & Hil & -> & _).
  change (Print "Scanning folder for video files"
            :: body ++ [Print "Conversion complete!"])%list
    with ([Print "Scanning folder for video files"]
            ++ body ++ [Print "Conversion complete!"])%list.
  rewrite !count_app, (interleaving_count f _ _ Hil), map_map.
  unfold count at 1 3. cbn [filter]. rewrite H1, H2. cbn [List.length]. lia.
Qed.

(** *** Distinct files have distinct probe commands *)

Lemma join_snoc (components : list string) (x : string) :
  join "/" (components ++ [x]) = dir_prefix components ++ x.
Proof.
  induction components as [|a t IH]; [reflexivity|].
  cbn [app dir_prefix]. rewrite !append_assoc, <- IH.
  destruct (t ++ [x])%list as [|y l] eqn:E; [|reflexivity].
  now apply app_eq_nil in E as [_ E].
Qed.

Lemma str_make_child (folder : Path) (entry : string) :
  entry <> "" ->
  str (make_child_relpath folder entry)
  = root folder ++ dir_prefix (tail folder) ++ entry.
Proof.
  intros Hne. unfold str, make_child_relpath. cbn [root tail].
  rewrite join_snoc.
  destruct (String.eqb_spec
              (root folder ++ dir_prefix (tail folder) ++ entry) "")
    as [E|]; [|reflexivity].
  exfalso. apply (f_equal String.length) in E.
  rewrite !length_append in E. cbn in E.
  destruct entry; [now apply Hne | cbn in E; lia].
Qed.

Lemma ffprobe_cmd_child_inj (folder : Path) (a b : string) :
  a <> "" -> b <> "" ->
  ffprobe_cmd (make_child_relpath folder a)
  = ffprobe_cmd (make_child_relpath folder b) ->
  a = b.
Proof.
  intros Ha Hb H. unfold ffprobe_cmd, quoted in H.
  apply append_inv_head in H. injection H as H.
  apply (append_inv_tail _ _ (String Bytes.dquote "")) in H.
  rewrite (str_make_child folder a Ha), (str_make_child folder b Hb) in H.
  now apply append_inv_head, append_inv_head in H.
Qed.

Lemma NoDup_map_on {A B} (f : A -> B) (l : list A) :
  (forall a b, In a l -> In b l -> f a = f b -> a = b) ->
  NoDup l -> NoDup (map f l).
Proof.
  intros Hinj Hnd. induction Hnd as [|x l Hx Hnd IH]; [constructor|].
  cbn [map]. constructor.
  - intros Hin. apply in_map_iff in Hin as (y & Hy & Hyl).
    apply Hx. rewrite (Hinj x y); [assumption | now left | now right | easy].
  - apply IH. intros a b Ha Hb. apply Hinj; now right.
Qed.

Lemma NoDup_map_filter {A B} (f : A -> B) (g : A -> bool) (l : list A) :
  NoDup (map f l) -> NoDup (map f (filter g l)).
Proof.
  induction l as [|x l IH]; [easy|]. cbn [map filter].
  intros H. inversion H as [|? ? Hx Hnd]; subst.
  destruct (g x); [|now apply IH].
  cbn [map]. constructor; [|now apply IH].
  intros Hin. apply Hx. apply in_map_iff in Hin as (y & Hy & Hyl).
  apply filter_In in Hyl as [Hyl _]. apply in_map_iff. now exists y.
Qed.

Lemma sum_indicator {A} (h : A -> string) (l : list A) (v : A) :
  NoDup (map h l) -> In v l ->
  list_sum (map (fun x => if String.eqb (h v) (h x) then 1 else 0) l) = 1.
Proof.
  induction l as [|a l IH]; [intros _ []|].
  cbn [map]. intros Hnd Hin. rewrite list_sum_cons.
  inversion Hnd as [|? ? Ha Hnd']; subst.
  assert (Hzero : ~ In (h v) (map h l) ->
            list_sum
              (map (fun x => if String.eqb (h v) (h x) then 1 else 0) l) = 0).
  { clear. induction l as [|b l IHl]; [reflexivity|].
    cbn [map]. intros Hn. rewrite list_sum_cons.
    destruct (String.eqb_spec (h v) (h b)) as [E|_].
    - exfalso. apply Hn. left. now symmetry.
    - rewrite IHl; [reflexivity|]. intros Hl. apply Hn. now right. }
  destruct Hin as [->|Hin].
  - rewrite String.eqb_refl, (Hzero Ha). reflexivity.
  - destruct (String.eqb_spec (h v) (h a)) as [E|_].
    + exfalso. apply Ha. rewrite <- E. now apply in_map.
    + now rewrite (IH Hnd' Hin).
Qed.

Lemma video_files_probe_cmds_distinct
    (os_listdir : Path -> list string) (is_file : Path -> bool)
    (folder : Path) :
  Forall (fun entry => entry_name_ok entry = true) (os_listdir folder) ->
  NoDup (os_listdir folder) ->
  NoDup (map ffprobe_cmd (video_files os_listdir is_file folder)).
Proof.
  intros Hnames Hnd. unfold video_files, iterdir.
  apply NoDup_map_filter. rewrite map_map. apply NoDup_map_on; [|assumption].
  rewrite Forall_forall in Hnames.
  assert (Hne : forall x, In x (os_listdir folder) -> x <> "").
  { intros x Hx E. specialize (Hnames x Hx). now subst x. }
  intros a b Ha Hb. apply ffprobe_cmd_child_inj; now apply Hne.
Qed.

(** X10.  When the folder cannot be listed, a run of [main] prints the
    scanning notice and ends with that error.  Otherwise, however the
    worker pool schedules the tasks and whatever errors end them, the run
    returns normally, starts with the scanning notice and ends with
    [Conversion complete!]; it calls [ffprobe] as many times as there are
    kept files, and, the names of a folder being distinct, exactly once on
    each; and the calls of [ffmpeg] and the notices
    [No Japanese audio track found.] add up to the number of kept files
    whose probe could be started. *)
Theorem main_accounts_for_every_video_file
    (subprocess_run : string -> CompletedProcess)
    (subprocess_error : string -> option string)
    (os_listdir : Path -> list string)
    (listdir_error : Path -> option string) (is_file : Path -> bool)
    (folder_to_convert : string) (trace : list event)
    (outcome : result unit) :
  main subprocess_run subprocess_error os_listdir listdir_error is_file
    folder_to_convert trace outcome ->
  match listdir_error (parse folder_to_convert) with
  | Some message =>
      trace = [Print "Scanning folder for video files"]
      /\ outcome = Raise (OSError message)
  | None =>
      outcome = Return tt
      /\ hd_error trace = Some (Print "Scanning folder for video files")
      /\ last trace (Print "") = Print "Conversion complete!"
      /\ count is_ffprobe_run trace
         = List.length
             (video_files os_listdir is_file (parse folder_to_convert))
      /\ count is_ffmpeg_run trace + count is_skip_notice trace
         = List.length
             (probed subprocess_error
                (video_files os_listdir is_file (parse folder_to_convert)))
      /\ (Forall (fun entry => entry_name_ok entry = true)
            (os_listdir (parse folder_to_convert)) ->
          NoDup (os_listdir (parse folder_to_convert)) ->
          forall video_file,
            In video_file
              (video_files os_listdir is_file (parse folder_to_convert)) ->
            count (event_eqb (SubprocessRun (ffprobe_cmd video_file))) trace
            = 1)
  end.
Proof.
  intros Hmain.
  destruct (listdir_error (parse folder_to_convert)) as [message|] eqn:Hl.
  { unfold main in Hmain. now rewrite Hl in Hmain. }
  pose proof (fun f => main_count _ _ _ _ _ _ _ _ f Hmain Hl) as Hcount.
  unfold main in Hmain. rewrite Hl in Hmain.
  destruct Hmain as (body & _ & -> & ->).
  split; [reflexivity|]. split; [reflexivity|].
  split; [rewrite app_comm_cons; apply last_last|].
  set (vf := video_files os_listdir is_file (parse folder_to_convert)) in *.
  split; [|split].
  - rewrite (Hcount is_ffprobe_run eq_refl eq_refl). clear Hcount.
    induction vf as [|v vf IH]; [reflexivity|].
    cbn [map List.length]. rewrite list_sum_cons, IH. f_equal.
    pose proof (extract_audio_trace subprocess_run subprocess_error v) as Ht.
    destruct (subprocess_error (ffprobe_cmd v));
      [now rewrite Ht | destruct Ht as [-> | [t ->]]; reflexivity].
  - rewrite (Hcount is_ffmpeg_run eq_refl eq_refl).
    rewrite (Hcount is_skip_notice eq_refl eq_refl). clear Hcount.
    unfold probed.
    induction vf as [|v vf IH]; [reflexivity|].
    cbn [map filter]. rewrite !list_sum_cons.
    pose proof (extract_audio_trace subprocess_run subprocess_error v) as Ht.
    destruct (subprocess_error (ffprobe_cmd v)).
    + assert (Hv : count is_ffmpeg_run
                     (fst (extract_audio subprocess_run subprocess_error v))
                   + count is_skip_notice
                       (fst (extract_audio subprocess_run subprocess_error v))
                   = 0)
        by (rewrite Ht; reflexivity).
      lia.
    + cbn [List.length].
      assert (Hv : count is_ffmpeg_run
                     (fst (extract_audio subprocess_run subprocess_error v))
                   + count is_skip_notice
                       (fst (extract_audio subprocess_run subprocess_error v))
                   = 1)
        by (destruct Ht as [-> | [t ->]]; reflexivity).
      lia.
  - intros Hnames Hnd v Hv.
    rewrite (Hcount (event_eqb (SubprocessRun (ffprobe_cmd v)))
               eq_refl eq_refl).
    rewrite <- (sum_indicator ffprobe_cmd vf v
                  (video_files_probe_cmds_distinct _ _ _ Hnames Hnd) Hv).
    f_equal. apply map_ext. intros x.
    pose proof (extract_audio_trace subprocess_run subprocess_error x) as Ht.
    assert (Hcmd : forall track,
              String.eqb (ffprobe_cmd v)
                (ffmpeg_cmd x track (str (output_path x))) = false)
      by reflexivity.
    destruct (subprocess_error (ffprobe_cmd x)).
    + rewrite Ht. unfold count. cbn [filter event_eqb].
      now destruct (String.eqb (ffprobe_cmd v) (ffprobe_cmd x)).
    + destruct Ht as [-> | [t ->]]; unfold count; cbn [filter event_eqb];
        try rewrite Hcmd;
        now destruct (String.eqb (ffprobe_cmd v) (ffprobe_cmd x)).
Qed.

Example sample_trace_events :
  sample_trace
  = [Print "Scanning folder for video files";
     SubprocessRun ("ffprobe " ++ quoted "videos/a.mkv");
     Print ("Extracting audio from videos/a.mkv" ++ newline);
     SubprocessRun
       ("ffmpeg -i " ++ quoted "videos/a.mkv" ++ " -q:a 0 -map 0:2 "
          ++ quoted "videos/a.mp3");
     SubprocessRun ("ffprobe " ++ quoted "videos/b.mp4");
     Print "Conversion complete!"].
Proof. vm_compute. reflexivity. Qed.

Lemma main_accounts_for_every_video_file_witness :
  count is_ffmpeg_run sample_trace + count is_skip_notice sample_trace
  = List.length
      (probed sample_subprocess_error
         (video_files sample_listdir (fun _ => true) (parse "videos")))
  /\ count (event_eqb (SubprocessRun (ffprobe_cmd (parse "videos/a.mkv"))))
       sample_trace
     = 1.
Proof.
  pose proof (main_accounts_for_every_video_file
                sample_subprocess_run sample_subprocess_error
                sample_listdir (fun _ => None) (fun _ => true) "videos"
                sample_trace (Return tt)
                (main_sequential _ _ _ _ _ _ eq_refl)) as H.
  cbv beta iota in H.
  destruct H as (_ & _ & _ & _ & Hsum & Honce).
  split; [exact Hsum|].
  apply Honce.
  - repeat constructor.
  - repeat constructor; cbn [In]; intuition discriminate.
  - left. reflexivity.
Defined.

(** X11.  Whatever the schedule, every command a run of [main] starts is
    the probe of a kept file or an [ffmpeg] command that reads a kept file
    and writes its [output_path]: nothing is run for an entry that is not
    a file or has another extension, and nothing else is run at all. *)
Theorem main_runs_commands_for_video_files_only
    (subprocess_run : string -> CompletedProcess)
    (subprocess_error : string -> option string)
    (os_listdir : Path -> list string)
    (listdir_error : Path -> option string) (is_file : Path -> bool)
    (folder_to_convert : string) (trace : list event)
    (outcome : result unit) (cmd : string) :
  main subprocess_run subprocess_error os_listdir listdir_error is_file
    folder_to_convert trace outcome ->
  In (SubprocessRun cmd) trace ->
  exists video_file,
    In video_file (video_files os_listdir is_file (parse folder_to_convert))
    /\ (cmd = "ffprobe " ++ quoted (str video_file)
        \/ exists track_index,
             cmd = ffmpeg_cmd video_file track_index
                     (str (output_path video_file))).
Proof.
  unfold main.
  destruct (listdir_error (parse folder_to_convert)) as [message|].
  { intros [-> _] [Hin|[]]. discriminate Hin. }
  intros (body & Hil & -> & _) Hin.
  destruct Hin as [Hin|Hin]; [discriminate|].
  apply in_app_or in Hin as [Hin|[Hin|[]]]; [|discriminate].
  destruct (interleaving_In _ _ _ Hil Hin) as (t & Ht & He).
  apply in_map_iff in Ht as (v & <- & Hv).
  exists v. split; [assumption|].
  pose proof (extract_audio_trace subprocess_run subprocess_error v) as Ht.
  unfold ffprobe_cmd in Ht.
  destruct (subprocess_error ("ffprobe " ++ quoted (str v))).
  - rewrite Ht in He. destruct He as [[= <-]|[]]. now left.
  - destruct Ht as [E | [track E]]; rewrite E in He; cbn [In] in He.
    + destruct He as [[= <-]|[[=]|[]]]. now left.
    + destruct He as [[= <-]|[[=]|[[= <-]|[]]]]; [now left|].
      right. now exists track.
Qed.

Lemma main_runs_commands_for_video_files_only_witness :
  exists video_file,
    In video_file
      (video_files (fun _ => ["a.mkv"; "c.txt"]) (fun _ => true)
         (parse "videos"))
    /\ ("ffprobe " ++ quoted "videos/a.mkv"
        = "ffprobe " ++ quoted (str video_file)
        \/ exists track_index,
             "ffprobe " ++ quoted "videos/a.mkv"
             = ffmpeg_cmd video_file track_index
                 (str (output_path video_file))).
Proof.
  apply (main_runs_commands_for_video_files_only
           (fun _ => mkCompleted 0 [] (list_byte_of_string docstring_example))
           (fun _ => None)
           (fun _ => ["a.mkv"; "c.txt"]) (fun _ => None) (fun _ => true)
           "videos" _ _ _ (main_sequential _ _ _ _ _ _ eq_refl)).
  vm_compute. right. left. reflexivity.
Defined.

(** ** More on the pattern and on the output paths *)

(** X12.  An audio stream line with a label [digit:digit] and a tag of
    letters is always found, whatever text follows it and whatever text
    without a capital [S] (indentation, say) comes before it; the scan
    goes on right after [Audio]. *)
Theorem audio_line_is_always_found (before l t rest : string) :
  no_S before = true ->
  Probe.label_ok l = true ->
  Probe.tag_ok t = true ->
  streams_of (before ++ "Stream #" ++ l ++ "(" ++ t ++ "): Audio" ++ rest)
  = (l, t) :: streams_of rest.
Proof.
  intros Hb Hl Ht.
  rewrite (streams_of_skip_word before _ Hb).
  now apply streams_of_match.
Qed.

Lemma audio_line_is_always_found_witness :
  streams_of ("    " ++ "Stream #" ++ "0:2" ++ "(" ++ "jpn" ++ "): Audio"
                ++ ": aac (LC), 48000 Hz, stereo, fltp")
  = ("0:2", "jpn") :: streams_of ": aac (LC), 48000 Hz, stereo, fltp".
Proof.
  apply (audio_line_is_always_found "    " "0:2" "jpn"); reflexivity.
Defined.



Lemma hexdigit_printable (k : nat) : printable (Bytes.hexdigit k) = true.
Proof.
  unfold Bytes.hexdigit.
  do 16 (destruct k as [|k]; [reflexivity|]).
  cbn [list_ascii_of_string nth]. now destruct k.
Qed.

Lemma repr_byte_printable (q : ascii) (x : byte) :
  Bytes.is_quote q ->
  forall_char printable (Bytes.repr_byte q x) = true.
Proof.
  intros Hq.
  destruct (Bytes.plain q (ascii_of_byte x)) eqn:Hx.
  - rewrite (repr_byte_plain q x Hx). cbn [forall_char].
    unfold Bytes.plain in Hx. unfold printable.
    apply andb_true_iff in Hx as [Hx H4].
    apply andb_true_iff in Hx as [_ H3].
    now rewrite H3, H4.
  - unfold Bytes.repr_byte.
    destruct (Ascii.eqb (ascii_of_byte x) q
              || Ascii.eqb (ascii_of_byte x) Bytes.backslash) eqn:E1.
    + apply orb_true_iff in E1 as [E|E]; apply Ascii.eqb_eq in E; rewrite E.
      * destruct Hq as [-> | ->]; reflexivity.
      * reflexivity.
    + destruct (code (ascii_of_byte x) =? 9)%nat; [reflexivity|].
      destruct (code (ascii_of_byte x) =? 10)%nat; [reflexivity|].
      destruct (code (ascii_of_byte x) =? 13)%nat; [reflexivity|].
      destruct ((code (ascii_of_byte x) <? 32)
                || (127 <=? code (ascii_of_byte x)))%nat eqn:E2.
      * cbn [forall_char]. now rewrite !hexdigit_printable.
      * exfalso. unfold Bytes.plain in Hx.
        apply orb_false_iff in E1 as [Ea Eb], E2 as [Ec Ed].
        rewrite Ea, Eb in Hx. cbn [negb andb] in Hx.
        apply Nat.ltb_ge in Ec. apply Nat.leb_gt in Ed.
        apply andb_false_iff in Hx as [H|H].
        -- apply Nat.leb_gt in H. lia.
        -- apply Nat.ltb_ge in H. lia.
Qed.

Lemma escape_printable (q : ascii) (b : Bytes.bytes) :
  Bytes.is_quote q -> forall_char printable (Bytes.escape q b) = true.
Proof.
  intros Hq. induction b as [|x b IH]; [reflexivity|].
  cbn [Bytes.escape]. rewrite forall_char_append.
  now rewrite (repr_byte_printable q x Hq), IH.
Qed.

(** X14.  The text the pattern is applied to, [str(output.stderr)], holds
    printable ASCII characters only, whatever bytes the probe wrote: a
    byte outside that range reaches the pattern as a backslash escape, so
    [\d] only ever meets the digits [0] to [9]. *)
Theorem probe_text_is_printable_ascii (b : Bytes.bytes) :
  forall_char printable (Bytes.repr b) = true.
Proof.
  unfold Bytes.repr.
  pose proof (quote_for_is_quote b) as Hq.
  set (q := Bytes.quote_for b) in *.
  assert (Hqp : printable q = true)
    by (destruct Hq as [-> | ->]; reflexivity).
  cbn [forall_char]. rewrite Hqp.
  rewrite forall_char_append, (escape_printable q b Hq).
  cbn [forall_char]. now rewrite Hqp.
Qed.

(* ================================================================== *)
(** * Reports as the probe prints them *)

Lemma compatible_blocks (p s rest : string) :
  Probe.compatible p s = false -> strip_prefix p (s ++ rest) = None.
Proof.
  revert s; induction p as [|a p IH]; intros [|b s] H; try discriminate.
  cbn [Probe.compatible] in H. cbn [append strip_prefix].
  destruct (Ascii.eqb a b); [now apply IH | reflexivity].
Qed.

(** Filler is passed over. *)
Lemma streams_of_skip_filler (filler rest : string) :
  Probe.marker_free filler = true ->
  streams_of (filler ++ rest) = streams_of rest.
Proof.
  induction filler as [|c filler IH]; [reflexivity|].
  cbn [Probe.marker_free]. intros H.
  apply andb_true_iff in H as [Hc Hf]. apply negb_true_iff in Hc.
  rewrite streams_of_unfold. unfold match_descriptor.
  rewrite (compatible_blocks _ _ rest Hc). cbn [append].
  now apply IH.
Qed.

Lemma streams_of_other_kind (l t s : string) :
  Probe.label_ok l = true ->
  Probe.tag_ok t = true ->
  starts_with "Audio" s = false ->
  match_descriptor ("Stream #" ++ l ++ "(" ++ t ++ "): " ++ s) = None
  /\ streams_of ("Stream #" ++ l ++ "(" ++ t ++ "): " ++ s) = streams_of s.
Proof.
  intros Hl Ht Hs.
  apply andb_true_iff in Ht as [Hne Ht].
  assert (Hm : match_descriptor ("Stream #" ++ l ++ "(" ++ t ++ "): " ++ s)
               = None).
  { unfold match_descriptor. rewrite strip_prefix_append.
    destruct l as [|d1 [|x [|d2 [|]]]]; try discriminate.
    cbn [Probe.label_ok] in Hl.
    apply andb_true_iff in Hl as [Hl Hd2].
    apply andb_true_iff in Hl as [Hd1 Hx].
    apply Ascii.eqb_eq in Hx. subst x.
    cbn [append]. rewrite Hd1, Hd2. cbn [Ascii.eqb Bool.eqb andb].
    rewrite (span_append Probe.is_alpha t _ Ht) by reflexivity.
    destruct t as [|a t]; [discriminate|].
    unfold starts_with in Hs.
    destruct (strip_prefix "Audio" s) eqn:E; [discriminate|].
    change (strip_prefix "): Audio" (String ")" (String ":" (String " " s))))
      with (strip_prefix "Audio" s).
    now rewrite E. }
  split; [exact Hm|].
  rewrite streams_of_unfold, Hm.
  change ("Stream #" ++ l ++ "(" ++ t ++ "): " ++ s)
    with (String "S" ("tream #" ++ l ++ "(" ++ t ++ "): " ++ s)).
  cbv iota. rewrite (streams_of_skip_label l _ Hl).
  cbn [append]. rewrite streams_of_skip by reflexivity.
  rewrite streams_of_skip_tag by assumption.
  now rewrite !streams_of_skip by reflexivity.
Qed.

Lemma streams_of_untagged_head (l rest : string) :
  Probe.label_ok l = true ->
  streams_of ("Stream #" ++ l ++ ": " ++ rest) = streams_of rest.
Proof.
  intros Hl.
  change ("Stream #" ++ l ++ ": " ++ rest)
    with ("Stream #" ++ l ++ String ":" (String " " rest)).
  rewrite streams_of_unfold.
  rewrite (match_descriptor_needs_paren l ":" _ Hl eq_refl).
  change ("Stream #" ++ l ++ String ":" (String " " rest))
    with (String "S" ("tream #" ++ l ++ String ":" (String " " rest))).
  cbv iota. rewrite (streams_of_skip_label l _ Hl).
  now rewrite !streams_of_skip by reflexivity.
Qed.

Lemma streams_of_segment (seg : Probe.segment) (rest : string) :
  Probe.segment_ok seg = true ->
  streams_of (Probe.render_segment seg ++ rest)
  = (Probe.tagged (Probe.audio_streams [seg]) ++ streams_of rest)%list.
Proof.
  destruct seg as [filler | [l [t|]] | l [t|] other];
    cbn [Probe.segment_ok Probe.render_segment Probe.audio_streams
         Probe.tagged Probe.label Probe.language app];
    intros H.
  - now apply streams_of_skip_filler.
  - apply andb_true_iff in H as [Hl Ht]. cbn [Probe.label Probe.language] in *.
    unfold Probe.descriptor_line, Probe.tag_text.
    cbn [Probe.label Probe.language].
    replace (("Stream #" ++ l ++ ("(" ++ t ++ ")") ++ ": Audio") ++ rest)
      with ("Stream #" ++ l ++ "(" ++ t ++ "): Audio" ++ rest)
      by (now rewrite !append_assoc).
    now apply streams_of_match.
  - apply andb_true_iff in H as [Hl _]. cbn [Probe.label] in Hl.
    unfold Probe.descriptor_line, Probe.tag_text.
    cbn [Probe.label Probe.language].
    replace (("Stream #" ++ l ++ "" ++ ": Audio") ++ rest)
      with ("Stream #" ++ l ++ ": Audio" ++ rest)
      by (now rewrite !append_assoc).
    now apply streams_of_untagged_line.
  - apply andb_true_iff in H as [H Hfree].
    apply andb_true_iff in H as [Hok Hkind].
    apply andb_true_iff in Hok as [Hl Ht].
    cbn [Probe.label Probe.language] in *.
    apply negb_true_iff in Hkind.
    unfold Probe.tag_text. cbn [Probe.language].
    replace (("Stream #" ++ l ++ ("(" ++ t ++ ")") ++ ": " ++ other) ++ rest)
      with ("Stream #" ++ l ++ "(" ++ t ++ "): " ++ other ++ rest)
      by (now rewrite !append_assoc).
    destruct (streams_of_other_kind l t (other ++ rest) Hl Ht) as [_ ->].
    + unfold starts_with.
      now rewrite (compatible_blocks "Audio" other rest Hkind).
    + now apply streams_of_skip_filler.
  - apply andb_true_iff in H as [H Hfree].
    apply andb_true_iff in H as [Hok _].
    apply andb_true_iff in Hok as [Hl _]. cbn [Probe.label] in Hl.
    unfold Probe.tag_text. cbn [Probe.language].
    replace (("Stream #" ++ l ++ "" ++ ": " ++ other) ++ rest)
      with ("Stream #" ++ l ++ ": " ++ other ++ rest)
      by (now rewrite !append_assoc).
    rewrite (streams_of_untagged_head l _ Hl).
    now apply streams_of_skip_filler.
Qed.

(** The pattern finds exactly the tagged audio streams of a report, in the
    order of the text: lines without a tag, streams of other kinds and
    filler contribute nothing. *)
Lemma streams_of_render (r : Probe.report) :
  Probe.report_ok r = true ->
  streams_of (Probe.render r) = Probe.tagged (Probe.audio_streams r).
Proof.
  unfold Probe.report_ok.
  induction r as [|seg r IH]; [reflexivity|].
  cbn [forallb Probe.render]. intros H.
  apply andb_true_iff in H as [Hseg Hr].
  rewrite (streams_of_segment seg _ Hseg), (IH Hr).
  destruct seg as [filler | [l [t|]] | l lang other]; reflexivity.
Qed.

Example docstring_report_renders :
  Probe.render docstring_report = docstring_example
  /\ Probe.report_ok docstring_report = true.
Proof. split; reflexivity. Qed.

(** An audio line with a tag that stands anywhere in the text is not
    lost: the pattern finds some stream. *)
Lemma tagged_line_is_not_lost (before l t after : string) :
  Probe.label_ok l = true -> Probe.tag_ok t = true ->
  streams_of (before ++ "Stream #" ++ l ++ "(" ++ t ++ "): Audio" ++ after)
  <> [].
Proof.
  intros Hl Ht. induction before as [|c before IH].
  - change (streams_of
              ("Stream #" ++ l ++ "(" ++ t ++ "): Audio" ++ after) <> []).
    now rewrite streams_of_match.
  - rewrite streams_of_unfold.
    destruct (match_descriptor _) as [[gs rest]|]; [discriminate|].
    exact IH.
Qed.

Lemma no_stream_iff_no_tagged_line (probe_text : string) :
  streams_of probe_text = []
  <-> ~ exists l t,
          Probe.label_ok l = true /\ Probe.tag_ok t = true
          /\ occurs_in ("Stream #" ++ l ++ "(" ++ t ++ "): Audio") probe_text.
Proof.
  split.
  - intros H (l & t & Hl & Ht & before & after & ->).
    rewrite !append_assoc in H.
    now apply (tagged_line_is_not_lost before l t after Hl Ht).
  - intros H. destruct (streams_of probe_text) as [|[l t] rest] eqn:E;
      [reflexivity|].
    exfalso. apply H. exists l, t.
    apply streams_of_sound. rewrite E. now left.
Qed.

(** ** The selector on reports, and on every text *)

(** C2, counterexample.  The number of audio streams of the report does
    not decide: a report with exactly one audio stream, which carries no
    tag, makes the selector raise; a report with two audio streams, none
    tagged [jpn], one of them without a tag, makes it return a label. *)
Lemma descriptor_count_does_not_decide :
  (Probe.report_ok untagged_report = true
   /\ List.length (Probe.audio_streams untagged_report) = 1
   /\ select_japanese_track (Probe.render untagged_report)
      = Raise JapaneseNotFoundException)
  /\ (Probe.report_ok untagged_and_eng_report = true
      /\ 2 <= List.length (Probe.audio_streams untagged_and_eng_report)
      /\ existsb Probe.tagged_jpn
           (Probe.audio_streams untagged_and_eng_report) = false
      /\ select_japanese_track (Probe.render untagged_and_eng_report)
         = Return "0:2").
Proof. vm_compute. repeat split. apply le_n. Qed.

(** C2 (amended).  The selector raises [JapaneseNotFoundException]
    exactly when the pattern finds no audio stream in the probe text, or
    finds two or more of which none is tagged [jpn]; in every other case it
    returns an index label.  The streams the pattern finds are the audio
    streams that carry a language tag: none is found exactly when no line
    [Stream #<digit:digit>(<letters>): Audio] stands in the text, and in a
    report they are the tagged audio streams of the report, in order, the
    untagged ones left out. *)
Theorem select_fails_exactly_when (probe_text : string) :
  (select_japanese_track probe_text = Raise JapaneseNotFoundException
   <-> streams_of probe_text = []
       \/ (2 <= List.length (streams_of probe_text)
           /\ no_jpn (streams_of probe_text)))
  /\ ((exists index, select_japanese_track probe_text = Return index)
      <-> ~ (streams_of probe_text = []
             \/ (2 <= List.length (streams_of probe_text)
                 /\ no_jpn (streams_of probe_text))))
  /\ (streams_of probe_text = []
      <-> ~ exists l t,
              Probe.label_ok l = true /\ Probe.tag_ok t = true
              /\ occurs_in ("Stream #" ++ l ++ "(" ++ t ++ "): Audio")
                   probe_text)
  /\ (forall r : Probe.report,
        Probe.report_ok r = true ->
        Probe.render r = probe_text ->
        streams_of probe_text = Probe.tagged (Probe.audio_streams r)).
Proof.
  destruct (select_raises_iff probe_text) as [H1 H2].
  split; [exact H1|]. split; [exact H2|].
  split; [apply no_stream_iff_no_tagged_line|].
  intros r Hok <-. now apply streams_of_render.
Qed.

Lemma select_fails_exactly_when_witness :
  streams_of docstring_example = [("0:1", "eng"); ("0:2", "jpn")]
  /\ (select_japanese_track
        (Probe.render untagged_report) = Raise JapaneseNotFoundException
      <-> streams_of (Probe.render untagged_report) = []
          \/ (2 <= List.length (streams_of (Probe.render untagged_report))
              /\ no_jpn (streams_of (Probe.render untagged_report)))).
Proof.
  split.
  - exact (proj2 (proj2 (proj2 (select_fails_exactly_when docstring_example)))
             docstring_report eq_refl eq_refl).
  - exact (proj1 (select_fails_exactly_when (Probe.render untagged_report))).
Defined.

Lemma untagged_line_is_absent (l rest : string) :
  Probe.label_ok l = true ->
  match_at AUDIO_STREAM_RE ("Stream #" ++ l ++ ": Audio" ++ rest) = None
  /\ streams_of ("Stream #" ++ l ++ ": Audio" ++ rest) = streams_of rest.
Proof.
  intros Hl. split; [|now apply streams_of_untagged_line].
  rewrite match_at_AUDIO_STREAM_RE.
  change ("Stream #" ++ l ++ ": Audio" ++ rest)
    with ("Stream #" ++ l ++ String ":" (" Audio" ++ rest)).
  now apply match_descriptor_needs_paren.
Qed.

(** C5 (amended).  In every probe text, an audio stream line with no
    language tag is not matched by the pattern: it is parsed as absent and
    never selected.  A returned label is always that of an audio line that
    carries a tag and stands in the text; when some stream found is tagged
    [jpn], the label returned is that of a stream tagged [jpn]; and when
    the pattern finds at least two streams, nothing is returned without an
    explicit [jpn] tag.  The streams found, and counted, are the tagged
    audio streams: in a report, its tagged audio streams in order. *)
Theorem untagged_stream_never_selected (probe_text : string) :
  (forall l rest,
     Probe.label_ok l = true ->
     match_at AUDIO_STREAM_RE ("Stream #" ++ l ++ ": Audio" ++ rest) = None
     /\ streams_of ("Stream #" ++ l ++ ": Audio" ++ rest) = streams_of rest)
  /\ (forall index,
        select_japanese_track probe_text = Return index ->
        exists tag,
          In (index, tag) (streams_of probe_text)
          /\ Probe.tag_ok tag = true
          /\ occurs_in ("Stream #" ++ index ++ "(" ++ tag ++ "): Audio")
               probe_text)
  /\ ((exists x, In x (streams_of probe_text)
                 /\ Probe.is_jpn (snd x) = true) ->
      exists index tag,
        select_japanese_track probe_text = Return index
        /\ In (index, tag) (streams_of probe_text)
        /\ Probe.is_jpn tag = true)
  /\ (2 <= List.length (streams_of probe_text) ->
      forall index,
        select_japanese_track probe_text = Return index ->
        exists tag,
          In (index, tag) (streams_of probe_text)
          /\ Probe.is_jpn tag = true)
  /\ (forall r : Probe.report,
        Probe.report_ok r = true ->
        Probe.render r = probe_text ->
        streams_of probe_text = Probe.tagged (Probe.audio_streams r)).
Proof.
  split; [apply untagged_line_is_absent|].
  split.
  { intros index H. apply selected_streams_member in H as [tag Hin].
    exists tag. split; [assumption|].
    now apply streams_of_sound in Hin as (_ & Ht & Hocc). }
  split; [apply select_prefers_jpn|].
  split; [intros Hlen index; now apply select_requires_jpn_among_several|].
  intros r Hok <-. now apply streams_of_render.
Qed.

Lemma untagged_stream_never_selected_witness :
  streams_of (Probe.render untagged_and_eng_report) = [("0:2", "eng")]
  /\ (exists tag,
        In ("0:2", tag) (streams_of docstring_example)
        /\ Probe.is_jpn tag = true).
Proof.
  split.
  - exact (proj2 (proj2 (proj2 (proj2
             (untagged_stream_never_selected
                (Probe.render untagged_and_eng_report)))))
             untagged_and_eng_report eq_refl eq_refl).
  - apply (proj1 (proj2 (proj2 (proj2
             (untagged_stream_never_selected docstring_example))))).
    + vm_compute. apply le_n.
    + vm_compute. reflexivity.
Defined.
